(** * Kleroteria: the users controller of the Express API

    A shallow embedding of [apps/express-api/src/controllers/users.controller.ts]
    over the relational schema of [packages/database] (Drizzle tables
    [users], [sessions], [tokens] and their SQL constraints).

    Conventions.
    - Timestamps are milliseconds since the epoch, as [Z] ([Date.now()]).
    - Strings are [string]; a character is one code unit in the Latin-1
      range.
    - A table is the list of its rows in storage order; [select ... limit 1]
      is the first row satisfying the [where] clause.
    - Every [await db...] is one store statement.  A statement that violates
      a constraint throws, and so does one that binds a text value taken
      from the request that holds U+0000, which PostgreSQL refuses; the
      handlers catch it and answer 500, and the statements already run stay
      applied (no handler opens a transaction).
    - The rows of the store, the ids the server generates and the transport
      facts of a request (peer address, header values) hold no U+0000: the
      store let none in, the ids are hexadecimal, and the HTTP parser lets
      no such header through.
    - What a handler reads from outside (clock, random bytes, bcrypt salt,
      mail provider verdict) is passed in an [Env]. *)

From Stdlib Require Import ZArith List String Ascii Bool Lia.
Import ListNotations.

Local Open Scope Z_scope.
Local Open Scope string_scope.

(** ** Schema *)

Inductive user_role := FREE | PAID.
Inductive token_type := EMAIL | PHONE.
Inductive token_status := PENDING | EXPIRED.

Definition token_type_eqb (a b : token_type) : bool :=
  match a, b with
  | EMAIL, EMAIL | PHONE, PHONE => true
  | _, _ => false
  end.

Definition token_status_eqb (a b : token_status) : bool :=
  match a, b with
  | PENDING, PENDING | EXPIRED, EXPIRED => true
  | _, _ => false
  end.

Module Users.
Record row := {
  id : string;
  name : string;
  firstName : string;
  lastName : string;
  email : string;
  password : string;
  emailVerified : bool;
  phone : string;
  phoneVerified : bool;
  role : user_role;
  createdAt : Z;
  updatedAt : Z
}.

Definition set_emailVerified (b : bool) (u : row) : row :=
  {| id := id u; name := name u; firstName := firstName u;
     lastName := lastName u; email := email u; password := password u;
     emailVerified := b; phone := phone u;
     phoneVerified := phoneVerified u; role := role u;
     createdAt := createdAt u; updatedAt := updatedAt u |}.
End Users.

Module Sessions.
Record row := {
  id : string;
  userId : string;
  token : string;
  ipAddress : option string;
  userAgent : option string;
  expiresAt : Z;
  createdAt : Z;
  updatedAt : Z
}.
End Sessions.

Module Tokens.
Record row := {
  id : string;
  userId : string;
  code : string;
  type : token_type;
  status : token_status;
  createdAt : Z;
  updatedAt : Z;
  expiresAt : Z
}.

Definition set_status (s : token_status) (t : row) : row :=
  {| id := id t; userId := userId t; code := code t; type := type t;
     status := s; createdAt := createdAt t; updatedAt := updatedAt t;
     expiresAt := expiresAt t |}.
End Tokens.

(** ** Text the store accepts *)

(** PostgreSQL refuses a text value that holds the character U+0000: the
    statement that binds it throws (invalid byte sequence). *)
Fixpoint textOk (s : string) : bool :=
  match s with
  | EmptyString => true
  | String c s' => negb (Ascii.eqb c Ascii.zero) && textOk s'
  end.

(** ** The store *)

Record Db := {
  users : list Users.row;
  sessions : list Sessions.row;
  tokens : list Tokens.row
}.

Definition with_users (us : list Users.row) (db : Db) : Db :=
  {| users := us; sessions := sessions db; tokens := tokens db |}.

Definition with_sessions (ss : list Sessions.row) (db : Db) : Db :=
  {| users := users db; sessions := ss; tokens := tokens db |}.

Definition with_tokens (ts : list Tokens.row) (db : Db) : Db :=
  {| users := users db; sessions := sessions db; tokens := ts |}.

(** [update t set f where p] *)
Definition update_where {A} (p : A -> bool) (f : A -> A) (l : list A) : list A :=
  map (fun r => if p r then f r else r) l.

(** [delete from t where p] *)
Definition delete_where {A} (p : A -> bool) (l : list A) : list A :=
  filter (fun r => negb (p r)) l.

(** [select from t where p limit 1] *)
Definition select_first {A} (p : A -> bool) (l : list A) : option A :=
  find p l.

(** [insert into users]: the seven text columns must be text the store
    accepts; primary key [id], [users_email_unique], [users_phone_unique].
    [None] is the thrown error. *)
Definition insert_user (u : Users.row) (db : Db) : option Db :=
  if negb (textOk (Users.id u) && textOk (Users.name u)
           && textOk (Users.firstName u) && textOk (Users.lastName u)
           && textOk (Users.email u) && textOk (Users.password u)
           && textOk (Users.phone u))
  then None
  else if existsb (fun r => Users.id r =? Users.id u) (users db)
     || existsb (fun r => Users.email r =? Users.email u) (users db)
     || existsb (fun r => Users.phone r =? Users.phone u) (users db)
  then None
  else Some (with_users (users db ++ [u]) db).

(** [insert into sessions]: primary key [id], [sessions_token_unique],
    foreign key [user_id -> users.id].  Its text values are the generated id
    and token, the id of a stored user, and the peer address and User-Agent
    of the transport; none of them can hold U+0000. *)
Definition insert_session (s : Sessions.row) (db : Db) : option Db :=
  if existsb (fun r => Sessions.id r =? Sessions.id s) (sessions db)
     || existsb (fun r => Sessions.token r =? Sessions.token s) (sessions db)
     || negb (existsb (fun u => Users.id u =? Sessions.userId s) (users db))
  then None
  else Some (with_sessions (sessions db ++ [s]) db).

(** [insert into tokens]: primary key [id], [tokens_code_unique] (over all
    tokens, whatever their status), foreign key [user_id -> users.id].  Its
    text values are the generated id, the generated code and the id of a
    stored user; none of them can hold U+0000. *)
Definition insert_token (t : Tokens.row) (db : Db) : option Db :=
  if existsb (fun r => Tokens.id r =? Tokens.id t) (tokens db)
     || existsb (fun r => Tokens.code r =? Tokens.code t) (tokens db)
     || negb (existsb (fun u => Users.id u =? Tokens.userId t) (users db))
  then None
  else Some (with_tokens (tokens db ++ [t]) db).

(** ** Helpers of the controller *)

(** The alphabet of [generateCode]. *)
Definition characters : string := "ABCDEFGHIJKLMNOPQRSTUVWXYZ0123456789".

(** [characters[randomIndex]], as [+=] appends it to a string. *)
Definition char_at (s : string) (i : nat) : string :=
  match String.get i s with
  | Some c => String c EmptyString
  | None => "undefined"
  end.

(** [generateCode]: the loop [for (let i = 0; i < 6; i++)], each round
    drawing [randomInt(0, characters.length)] and appending the character
    at that index.  [randomInt i] is the draw of round [i]; [n] counts the
    rounds left. *)
Fixpoint generateCode_loop (n i : nat) (randomInt : nat -> nat) (result : string) : string :=
  match n with
  | O => result
  | S n' =>
    let randomIndex := randomInt i in
    generateCode_loop n' (S i) randomInt (result ++ char_at characters randomIndex)
  end.

Definition generateCode (randomInt : nat -> nat) : string :=
  generateCode_loop 6 0 randomInt EmptyString.

(** [String.prototype.toUpperCase] on strings of ASCII characters, where it
    maps a-z to A-Z and nothing else.  The handler applies it to a code only
    after the shape check has let it through, so to [A-Za-z0-9]; on a
    character outside ASCII this function is the identity and says nothing
    about JavaScript (which turns code unit 223 into two letters). *)
Definition upper_ascii (c : ascii) : ascii :=
  let n := nat_of_ascii c in
  if ((97 <=? n) && (n <=? 122))%nat then ascii_of_nat (n - 32) else c.

Fixpoint toUpperCase (s : string) : string :=
  match s with
  | EmptyString => EmptyString
  | String c s' => String (upper_ascii c) (toUpperCase s')
  end.

Definition is_alnum (c : ascii) : bool :=
  let n := nat_of_ascii c in
  (((65 <=? n) && (n <=? 90)) || ((97 <=? n) && (n <=? 122))
   || ((48 <=? n) && (n <=? 57)))%nat.

Fixpoint string_forallb (p : ascii -> bool) (s : string) : bool :=
  match s with
  | EmptyString => true
  | String c s' => p c && string_forallb p s'
  end.

(** [/^[A-Za-z0-9]+$/.test(s)] *)
Definition alnumRegex_test (s : string) : bool :=
  negb (s =? EmptyString) && string_forallb is_alnum s.

(** [\s] within Latin-1: TAB, LF, VT, FF, CR, SPACE, NBSP. *)
Definition is_space (c : ascii) : bool :=
  let n := nat_of_ascii c in
  ((n =? 9) || (n =? 10) || (n =? 11) || (n =? 12) || (n =? 13)
   || (n =? 32) || (n =? 160))%nat.

(** [[^\s@]] *)
Definition is_plain (c : ascii) : bool :=
  negb (is_space c) && negb (Ascii.eqb c "@"%char).

Fixpoint span_plain (s : list ascii) : list ascii * list ascii :=
  match s with
  | c :: s' =>
    if is_plain c then let (a, b) := span_plain s' in (c :: a, b)
    else ([], s)
  | [] => ([], [])
  end.

(** [emailRegex = /^[^\s@]+@[^\s@]+\.[^\s@]+$/]: a non-empty run of plain
    characters, one [@], then plain characters only with a dot that is
    neither the first nor the last of them. *)
Definition emailRegex_test (email : string) : bool :=
  let (loc, rest) := span_plain (list_ascii_of_string email) in
  match loc, rest with
  | _ :: _, at_sign :: d :: dom =>
    Ascii.eqb at_sign "@"%char && forallb is_plain (d :: dom)
    && existsb (Ascii.eqb "."%char) (removelast dom)
  | _, _ => false
  end.

Definition is_empty (s : string) : bool := s =? EmptyString.

(** ** Requests, responses and the outside world *)

Record SignUpRequest := {
  su_firstName : string;
  su_lastName : string;
  su_email : string;
  su_phone : string;
  su_password : string
}.

Record SignInRequest := {
  si_email : string;
  si_password : string;
  si_rememberMe : bool
}.

(** Transport facts of a request: [req.ip] and [req.get('User-Agent')]. *)
Record Client := {
  ip : option string;
  userAgentHeader : option string
}.

(** What one handler run reads from outside the store. *)
Record Env := {
  now : Z;                  (* first reading of the server clock *)
  now2 : Z;                 (* second reading, where a handler reads it twice *)
  dbNow : Z;                (* the database's [now()] for column defaults *)
  newUserId : string;       (* generateUserId() *)
  newSessionId : string;    (* generateSessionId() *)
  newSessionToken : string; (* generateSessionToken() *)
  newTokenId : string;      (* generateTokenId() *)
  codeDraws : nat -> nat;   (* the i-th randomInt(0, 36) of generateCode() *)
  salt : string;            (* the salt bcrypt draws *)
  sendError : bool;         (* resend.emails.send returned an error *)
  generated_ok :            (* randomBytes(n).toString('hex') holds no U+0000 *)
    textOk newUserId && textOk newSessionId && textOk newSessionToken
    && textOk newTokenId = true
}.

(** The public projection of a user row that the handlers return. *)
Record UserView := {
  uv_id : string;
  uv_firstName : string;
  uv_lastName : string;
  uv_email : string;
  uv_phone : string;
  uv_role : user_role;
  uv_emailVerified : bool;
  uv_phoneVerified : bool
}.

(** The token object the verification handlers return. *)
Record TokenView := {
  tv_id : string;
  tv_userId : string;
  tv_code : string;
  tv_type : token_type;
  tv_status : token_status;
  tv_createdAt : Z;
  tv_updatedAt : Z;
  tv_expiresAt : Z
}.

Inductive Data :=
| NoData
| UserData (user : UserView)
| TokenData (token : TokenView).

Record Cookie := {
  cookieName : string;
  cookieValue : string;
  maxAge : Z
}.

Record Response := {
  status : Z;
  success : bool;
  message : option string;
  data : Data;
  cookie : option Cookie
}.

(** A call of [resend.emails.send]: sender, recipient, subject, and the two
    values interpolated in the HTML body. *)
Record Email := {
  from : string;
  to : string;
  subject : string;
  greetedName : string;
  shownCode : string
}.

Record Result := {
  response : Response;
  store : Db;
  outbox : list Email
}.

Definition failure (code : Z) (msg : string) : Response :=
  {| status := code; success := false; message := Some msg;
     data := NoData; cookie := None |}.

Definition badRequest : Response := failure 400 "Bad Request".
Definition unauthorized : Response := failure 401 "Unauthorized".
Definition conflict : Response := failure 409 "Conflict".
Definition internalServerError : Response := failure 500 "Internal Server Error".

Definition reply (r : Response) (db : Db) : Result :=
  {| response := r; store := db; outbox := [] |}.

Definition userView (u : Users.row) : UserView :=
  {| uv_id := Users.id u; uv_firstName := Users.firstName u;
     uv_lastName := Users.lastName u; uv_email := Users.email u;
     uv_phone := Users.phone u; uv_role := Users.role u;
     uv_emailVerified := Users.emailVerified u;
     uv_phoneVerified := Users.phoneVerified u |}.

Definition tokenView (t : Tokens.row) : TokenView :=
  {| tv_id := Tokens.id t; tv_userId := Tokens.userId t;
     tv_code := Tokens.code t; tv_type := Tokens.type t;
     tv_status := Tokens.status t; tv_createdAt := Tokens.createdAt t;
     tv_updatedAt := Tokens.updatedAt t; tv_expiresAt := Tokens.expiresAt t |}.

Definition okToken (msg : option string) (t : Tokens.row) : Response :=
  {| status := 200; success := true; message := msg;
     data := TokenData (tokenView t); cookie := None |}.

Definition sevenDays : Z := 7 * 24 * 60 * 60 * 1000.
Definition oneDay : Z := 24 * 60 * 60 * 1000.
Definition tenMinutes : Z := 10 * 60 * 1000.

(** [req.get('User-Agent') || null] *)
Definition userAgentOrNull (c : Client) : option string :=
  match userAgentHeader c with
  | Some h => if is_empty h then None else Some h
  | None => None
  end.

Definition sessionCookie (value : string) (age : Z) : Cookie :=
  {| cookieName := "sessionToken"; cookieValue := value; maxAge := age |}.

(** The [where] clauses over [tokens]. *)

(** [userId = uid and type = 'EMAIL'] *)
Definition emailTokenOf (uid : string) (t : Tokens.row) : bool :=
  (Tokens.userId t =? uid) && token_type_eqb (Tokens.type t) EMAIL.

(** [userId = uid and type = 'EMAIL' and status = 'PENDING'] *)
Definition pendingEmailTokenOf (uid : string) (t : Tokens.row) : bool :=
  emailTokenOf uid t && token_status_eqb (Tokens.status t) PENDING.

(** [... and status = 'PENDING' and expiresAt > at] *)
Definition validEmailTokenOf (uid : string) (at_ : Z) (t : Tokens.row) : bool :=
  pendingEmailTokenOf uid t && (at_ <? Tokens.expiresAt t)%Z.

(** The verification lookup, with the code as well. *)
Definition validEmailTokenWithCode (uid code : string) (at_ : Z) (t : Tokens.row) : bool :=
  (Tokens.userId t =? uid) && (Tokens.code t =? code)
  && token_type_eqb (Tokens.type t) EMAIL
  && token_status_eqb (Tokens.status t) PENDING
  && (at_ <? Tokens.expiresAt t)%Z.

Definition expireEmailTokens (uid : string) (db : Db) : Db :=
  with_tokens (update_where (emailTokenOf uid) (Tokens.set_status EXPIRED) (tokens db)) db.

Definition newEmailToken (uid : string) (env : Env) (at_ : Z) : Tokens.row :=
  {| Tokens.id := newTokenId env; Tokens.userId := uid;
     Tokens.code := generateCode (codeDraws env); Tokens.type := EMAIL;
     Tokens.status := PENDING; Tokens.createdAt := dbNow env;
     Tokens.updatedAt := dbNow env; Tokens.expiresAt := at_ + tenMinutes |}.

Definition verificationEmail (subj : string) (u : Users.row) (code : string) : Email :=
  {| from := "Kleroteria <onboarding@resend.dev>";
     to := "bigtexascompsci@proton.me";
     subject := subj;
     greetedName := Users.firstName u;
     shownCode := code |}.

(** ** The controllers *)

Section Controllers.

(** [bcrypt.hash(password, saltRounds)] with the salt it draws, and
    [bcrypt.compare(password, hash)]. *)
Variable bcrypt_hash : string -> Z -> string -> string.
Variable bcrypt_compare : string -> string -> bool.

(** [signUp].  The three field checks answer 400 before the store is
    touched.  The lookup binds the email of the request: if the store does
    not accept it as text the select throws.  [insert ... returning()] hands back the inserted row, so the
    [!newUser] test after it never fires; a constraint violation throws and
    lands in the [catch], which answers 500. *)
Definition signUp (req : SignUpRequest) (c : Client) (env : Env) (db : Db) : Result :=
  if is_empty (su_firstName req) || is_empty (su_lastName req)
     || is_empty (su_email req) || is_empty (su_phone req)
     || is_empty (su_password req)
  then reply badRequest db
  else if negb (emailRegex_test (su_email req)) then reply badRequest db
  else if (String.length (su_password req) <? 6)%nat then reply badRequest db
  else if negb (textOk (su_email req)) then reply internalServerError db
  else
    match select_first (fun u => Users.email u =? su_email req) (users db) with
    | Some _ => reply conflict db
    | None =>
      let saltRounds := 12 in
      let hashedPassword := bcrypt_hash (su_password req) saltRounds (salt env) in
      let userId := newUserId env in
      let newUser :=
        {| Users.id := userId;
           Users.name := su_firstName req ++ " " ++ su_lastName req;
           Users.firstName := su_firstName req;
           Users.lastName := su_lastName req;
           Users.email := su_email req;
           Users.password := hashedPassword;
           Users.emailVerified := false;
           Users.phone := su_phone req;
           Users.phoneVerified := false;
           Users.role := FREE;
           Users.createdAt := dbNow env;
           Users.updatedAt := dbNow env |} in
      match insert_user newUser db with
      | None => reply internalServerError db
      | Some db1 =>
        let sessionToken := newSessionToken env in
        let expiresAt := now env + sevenDays in
        match insert_session
                {| Sessions.id := newSessionId env;
                   Sessions.userId := userId;
                   Sessions.token := sessionToken;
                   Sessions.ipAddress := ip c;
                   Sessions.userAgent := userAgentOrNull c;
                   Sessions.expiresAt := expiresAt;
                   Sessions.createdAt := dbNow env;
                   Sessions.updatedAt := dbNow env |} db1 with
        | None => reply internalServerError db1
        | Some db2 =>
          reply {| status := 201; success := true;
                   message := Some "User created successfully";
                   data := UserData (userView newUser);
                   cookie := Some (sessionCookie sessionToken sevenDays) |} db2
        end
      end
    end.

(** [signIn].  The lookup binds the email of the request and throws if the
    store does not accept it as text; the [catch] then answers 500.  The
    clock is read once for [expiresAt] and once more in the [delete] that
    prunes the user's expired sessions. *)
Definition signIn (req : SignInRequest) (c : Client) (env : Env) (db : Db) : Result :=
  if is_empty (si_email req) || is_empty (si_password req)
  then reply badRequest db
  else if negb (textOk (si_email req)) then reply internalServerError db
  else
    match select_first (fun u => Users.email u =? si_email req) (users db) with
    | None => reply unauthorized db
    | Some user =>
      if negb (bcrypt_compare (si_password req) (Users.password user))
      then reply unauthorized db
      else
        let sessionToken := newSessionToken env in
        let sessionDuration := if si_rememberMe req then sevenDays else oneDay in
        let expiresAt := now env + sessionDuration in
        let db1 :=
          with_sessions
            (delete_where
               (fun s => (Sessions.userId s =? Users.id user)
                         && (Sessions.expiresAt s <? now2 env)%Z)
               (sessions db)) db in
        match insert_session
                {| Sessions.id := newSessionId env;
                   Sessions.userId := Users.id user;
                   Sessions.token := sessionToken;
                   Sessions.ipAddress := ip c;
                   Sessions.userAgent := userAgentOrNull c;
                   Sessions.expiresAt := expiresAt;
                   Sessions.createdAt := dbNow env;
                   Sessions.updatedAt := dbNow env |} db1 with
        | None => reply internalServerError db1
        | Some db2 =>
          reply {| status := 200; success := true;
                   message := Some "Signed in successfully";
                   data := UserData (userView user);
                   cookie := Some (sessionCookie sessionToken sessionDuration) |} db2
        end
    end.

End Controllers.

(** The handlers behind [authenticateUser] receive [req.user]; they use its
    [id] only.  [reqUser] is that id, [None] when [req.user] is unset; the
    middleware takes it from a stored row, so it is text the store accepts. *)

(** [getCurrentUser] *)
Definition getCurrentUser (reqUser : option string) (db : Db) : Result :=
  match reqUser with
  | None => reply unauthorized db
  | Some uid =>
    match select_first (fun u => Users.id u =? uid) (users db) with
    | None => reply unauthorized db
    | Some currentUser =>
      reply {| status := 200; success := true; message := None;
               data := UserData (userView currentUser); cookie := None |} db
    end
  end.

(** [sendEmailVerificationCode].  The lookup of a valid token reads the
    clock; the insert reads it again for [expiresAt].  As in [signUp], the
    [!newToken] test cannot fire after a successful insert.  The mail is sent
    after the insert; a mail error answers 500 with the token left stored. *)
Definition sendEmailVerificationCode (reqUser : option string) (env : Env) (db : Db) : Result :=
  match reqUser with
  | None => reply unauthorized db
  | Some uid =>
    match select_first (fun u => Users.id u =? uid) (users db) with
    | None => reply unauthorized db
    | Some currentUser =>
      match select_first (validEmailTokenOf (Users.id currentUser) (now env)) (tokens db) with
      | Some existingValidToken => reply (okToken None existingValidToken) db
      | None =>
        let db1 := expireEmailTokens (Users.id currentUser) db in
        let newToken := newEmailToken (Users.id currentUser) env (now2 env) in
        match insert_token newToken db1 with
        | None => reply internalServerError db1
        | Some db2 =>
          let mail := verificationEmail "Email Verification Code" currentUser
                                        (generateCode (codeDraws env)) in
          {| response :=
               if sendError env then internalServerError
               else okToken (Some "Verification code sent successfully") newToken;
             store := db2;
             outbox := [mail] |}
        end
      end
    end
  end.

(** [resendEmailVerificationCode]: [sendEmailVerificationCode] without the
    lookup of a valid token. *)
Definition resendEmailVerificationCode (reqUser : option string) (env : Env) (db : Db) : Result :=
  match reqUser with
  | None => reply unauthorized db
  | Some uid =>
    match select_first (fun u => Users.id u =? uid) (users db) with
    | None => reply unauthorized db
    | Some currentUser =>
      let db1 := expireEmailTokens (Users.id currentUser) db in
      let newToken := newEmailToken (Users.id currentUser) env (now env) in
      match insert_token newToken db1 with
      | None => reply internalServerError db1
      | Some db2 =>
        let mail := verificationEmail "Email Verification Code - Resent" currentUser
                                      (generateCode (codeDraws env)) in
        {| response :=
             if sendError env then internalServerError
             else okToken None newToken;
           store := db2;
           outbox := [mail] |}
      end
    end
  end.

(** [verifyEmailVerificationCode].  The shape of the code is checked before
    [req.user]; then three updates: the matched token, the user's flag, and
    every token of the user still PENDING. *)
Definition verifyEmailVerificationCode (code : string) (reqUser : option string)
    (env : Env) (db : Db) : Result :=
  if is_empty code then reply badRequest db
  else if negb (String.length code =? 6)%nat || negb (alnumRegex_test code)
  then reply badRequest db
  else
    match reqUser with
    | None => reply unauthorized db
    | Some uid =>
      match select_first (fun u => Users.id u =? uid) (users db) with
      | None => reply unauthorized db
      | Some currentUser =>
        let cid := Users.id currentUser in
        match select_first (validEmailTokenWithCode cid (toUpperCase code) (now env))
                           (tokens db) with
        | None => reply internalServerError db
        | Some validToken =>
          let db1 :=
            with_tokens
              (update_where (fun t => Tokens.id t =? Tokens.id validToken)
                            (Tokens.set_status EXPIRED) (tokens db)) db in
          let db2 :=
            with_users
              (update_where (fun u => Users.id u =? cid)
                            (Users.set_emailVerified true) (users db1)) db1 in
          let db3 :=
            with_tokens
              (update_where (pendingEmailTokenOf cid)
                            (Tokens.set_status EXPIRED) (tokens db2)) db2 in
          reply {| status := 200; success := true; message := None;
                   data := NoData; cookie := None |} db3
        end
      end
    end.

(** ** The at-most-one-active-token invariant *)

(** A token of the pair [(uid, ty)] that is PENDING and not yet past its
    [expiresAt] at the instant [at_]. *)
Definition activeFor (uid : string) (ty : token_type) (at_ : Z) (t : Tokens.row) : bool :=
  (Tokens.userId t =? uid) && token_type_eqb (Tokens.type t) ty
  && token_status_eqb (Tokens.status t) PENDING
  && (at_ <? Tokens.expiresAt t)%Z.

Definition atMostOneActive (at_ : Z) (ts : list Tokens.row) : Prop :=
  forall uid ty, (List.length (filter (activeFor uid ty at_) ts) <= 1)%nat.

(** The tokens an issuing handler leaves: untouched, superseded only (the
    insert threw), or superseded with the new token appended. *)
Definition issuedTokens (uid : string) (newToken : Tokens.row)
    (before after : list Tokens.row) : Prop :=
  after = before
  \/ after = update_where (emailTokenOf uid) (Tokens.set_status EXPIRED) before
  \/ (after = update_where (emailTokenOf uid) (Tokens.set_status EXPIRED) before
              ++ [newToken])%list.

(** ** Issuance as a sequence of store statements

    The two issuing handlers, cut at their [await]s: each step is one
    statement against the shared store (or the call to the mail provider).
    Between two steps of one request, steps of other requests may run. *)

Inductive Issuance := IssueSend | IssueResend.

Inductive Pc :=
| PcSelectUser
| PcSelectValid (currentUser : Users.row)
| PcExpire (currentUser : Users.row)
| PcInsert (currentUser : Users.row)
| PcMail (currentUser : Users.row) (newToken : Tokens.row)
| PcDone (r : Response).

Record World := {
  w_db : Db;
  w_outbox : list Email
}.

Record Request := {
  r_kind : Issuance;
  r_user : option string;
  r_env : Env
}.

(** The clock reading that dates the new token: the handler of send has
    read the clock once before (in its lookup), the handler of resend has not. *)
Definition issueClock (k : Issuance) (env : Env) : Z :=
  match k with
  | IssueSend => now2 env
  | IssueResend => now env
  end.

Definition issueSubject (k : Issuance) : string :=
  match k with
  | IssueSend => "Email Verification Code"
  | IssueResend => "Email Verification Code - Resent"
  end.

Definition issueMessage (k : Issuance) : option string :=
  match k with
  | IssueSend => Some "Verification code sent successfully"
  | IssueResend => None
  end.

Definition issuance_step (q : Request) (pc : Pc) (w : World) : Pc * World :=
  let env := r_env q in
  match pc with
  | PcSelectUser =>
    match r_user q with
    | None => (PcDone unauthorized, w)
    | Some uid =>
      match select_first (fun u => Users.id u =? uid) (users (w_db w)) with
      | None => (PcDone unauthorized, w)
      | Some currentUser =>
        (match r_kind q with
         | IssueSend => PcSelectValid currentUser
         | IssueResend => PcExpire currentUser
         end, w)
      end
    end
  | PcSelectValid currentUser =>
    match select_first (validEmailTokenOf (Users.id currentUser) (now env))
                       (tokens (w_db w)) with
    | Some existingValidToken => (PcDone (okToken None existingValidToken), w)
    | None => (PcExpire currentUser, w)
    end
  | PcExpire currentUser =>
    (PcInsert currentUser,
     {| w_db := expireEmailTokens (Users.id currentUser) (w_db w);
        w_outbox := w_outbox w |})
  | PcInsert currentUser =>
    let newToken := newEmailToken (Users.id currentUser) env (issueClock (r_kind q) env) in
    match insert_token newToken (w_db w) with
    | None => (PcDone internalServerError, w)
    | Some db2 =>
      (PcMail currentUser newToken, {| w_db := db2; w_outbox := w_outbox w |})
    end
  | PcMail currentUser newToken =>
    (PcDone (if sendError env then internalServerError
             else okToken (issueMessage (r_kind q)) newToken),
     {| w_db := w_db w;
        w_outbox := w_outbox w
                    ++ [verificationEmail (issueSubject (r_kind q)) currentUser
                                          (generateCode (codeDraws env))] |})
  | PcDone r => (PcDone r, w)
  end.

(** One request run on its own for [n] steps. *)
Fixpoint run_alone (n : nat) (q : Request) (pc : Pc) (w : World) : Pc * World :=
  match n with
  | O => (pc, w)
  | S n' => let (pc', w') := issuance_step q pc w in run_alone n' q pc' w'
  end.

(** Two requests against one store; the schedule says whose statement
    runs next. *)
Inductive Turn := First | Second.

Fixpoint interleave (sched : list Turn) (a b : Request) (pa pb : Pc) (w : World)
  : Pc * Pc * World :=
  match sched with
  | [] => (pa, pb, w)
  | First :: rest =>
    let (pa', w') := issuance_step a pa w in interleave rest a b pa' pb w'
  | Second :: rest =>
    let (pb', w') := issuance_step b pb w in interleave rest a b pa pb' w'
  end.

(** ** The outcome names of the specification

    The specification names the failures of the boundary operations
    ValidationError, Conflict, Unauthorized, Rejected and Internal.  This
    reads a handler response in those names: a success is [Ok]; 400, 401
    and 409 are the validation, authentication and uniqueness failures; any
    other client-error status is a refusal of the request ([Rejected]); a
    server-error status is [Internal]. *)

Inductive SpecOutcome :=
| Ok | ValidationError | Conflict | Unauthorized | Rejected | Internal.

Definition specOutcomeOf (r : Response) : SpecOutcome :=
  if success r then Ok
  else if (status r =? 400)%Z then ValidationError
  else if (status r =? 401)%Z then Unauthorized
  else if (status r =? 409)%Z then Conflict
  else if ((400 <=? status r) && (status r <? 500))%Z then Rejected
  else Internal.

(** ** Sample data *)

Definition alice : Users.row :=
  {| Users.id := "u1"; Users.name := "A B"; Users.firstName := "A";
     Users.lastName := "B"; Users.email := "a@x.com";
     Users.password := "$2b$12$hash-of-secret1"; Users.emailVerified := false;
     Users.phone := "+1555"; Users.phoneVerified := false; Users.role := FREE;
     Users.createdAt := 1000; Users.updatedAt := 1000 |}.

Definition db_alice : Db := {| users := [alice]; sessions := []; tokens := [] |}.

(** A sample environment at clock reading [t] that generates the token id
    [tokenId] (or "t0" if that is not text the store accepts). *)
Definition storable (s : string) : string := if textOk s then s else "t0".

Definition storable_ok (s : string) : textOk (storable s) = true :=
  match textOk s as b
        return (textOk s = b -> textOk (if b then s else "t0") = true) with
  | true => fun H => H
  | false => fun _ => eq_refl
  end eq_refl.

Definition env_at (t : Z) (tokenId : string) (draws : nat -> nat) : Env :=
  {| now := t; now2 := t; dbNow := t; newUserId := "u2";
     newSessionId := "s1"; newSessionToken := "tok1";
     newTokenId := storable tokenId;
     codeDraws := draws; salt := "salt"; sendError := false;
     generated_ok := storable_ok tokenId |}.

(** A token of alice issued at 2000 with code ABC123. *)
Definition alice_token : Tokens.row :=
  {| Tokens.id := "t0"; Tokens.userId := "u1"; Tokens.code := "ABC123";
     Tokens.type := EMAIL; Tokens.status := PENDING;
     Tokens.createdAt := 2000; Tokens.updatedAt := 2000;
     Tokens.expiresAt := 2000 + tenMinutes |}.

Definition db_alice_token : Db :=
  {| users := [alice]; sessions := []; tokens := [alice_token] |}.

(** Draws spelling ABC123, AAAAAA and BBBBBB. *)
Definition draws_ABC123 : nat -> nat := fun i => nth i [0; 1; 2; 27; 28; 29]%nat 0%nat.
Definition draws_A : nat -> nat := fun _ => 0%nat.
Definition draws_B : nat -> nat := fun _ => 1%nat.

Definition client0 : Client := {| ip := Some "127.0.0.1"; userAgentHeader := None |}.

Definition sample_hash (password : string) (rounds : Z) (salt : string) : string :=
  "$2b$12$" ++ salt ++ password.

Definition sample_compare (password hash : string) : bool :=
  hash =? "$2b$12$hash-of-" ++ password.

(** Two resend requests of alice, arriving together. *)
Definition resend_A : Request :=
  {| r_kind := IssueResend; r_user := Some "u1"; r_env := env_at 3000 "tA" draws_A |}.

Definition resend_B : Request :=
  {| r_kind := IssueResend; r_user := Some "u1"; r_env := env_at 3000 "tB" draws_B |}.

Definition alternate8 : list Turn :=
  [First; Second; First; Second; First; Second; First; Second].




Definition signIn_alice (remember : bool) : SignInRequest :=
  {| si_email := "a@x.com"; si_password := "secret1"; si_rememberMe := remember |}.

Definition signUp_carol (phone : string) : SignUpRequest :=
  {| su_firstName := "C"; su_lastName := "D"; su_email := "c@x.com";
     su_phone := phone; su_password := "secret2" |}.

(** The scenario of a new user: an empty store and alice's sign-up. *)
Definition db_empty : Db := {| users := []; sessions := []; tokens := [] |}.

Definition signUp_alice : SignUpRequest :=
  {| su_firstName := "A"; su_lastName := "B"; su_email := "a@x.com";
     su_phone := "+1555"; su_password := "secret1" |}.

(** ** Sign-out *)

(** What [signOut] hands back: the JSON answer, the cookie it clears with
    [res.clearCookie] (none when the handler threw before reaching it), and
    the store. *)
Record SignOutResult := {
  so_response : Response;
  so_clearedCookie : option string;
  so_store : Db
}.

Definition signedOut (db : Db) : SignOutResult :=
  {| so_response := {| status := 200; success := true;
                       message := Some "Signed out successfully";
                       data := NoData; cookie := None |};
     so_clearedCookie := Some "sessionToken";
     so_store := db |}.

(** [signOut].  [cookieToken] is [req.cookies?.sessionToken]; the delete runs
    only when it is truthy, that is, present and not the empty string.  The
    delete binds the cookie's value: if the store does not accept it as text
    the delete throws, and the [catch] answers 500 "Internal server error"
    before any cookie is cleared. *)
Definition signOut (cookieToken : option string) (db : Db) : SignOutResult :=
  match cookieToken with
  | Some sessionToken =>
    if is_empty sessionToken then signedOut db
    else if negb (textOk sessionToken)
    then {| so_response := failure 500 "Internal server error";
            so_clearedCookie := None;
            so_store := db |}
    else signedOut
           (with_sessions
              (delete_where (fun s => Sessions.token s =? sessionToken)
                            (sessions db)) db)
  | None => signedOut db
  end.

(** ** The form in front of the verification handler *)

(** [formSchema] of [VerifyEmailForm]:
    [z.string().min(6).max(6).regex(/^[A-Za-z0-9]+$/)]. *)
Definition formSchema_accepts (code : string) : bool :=
  (6 <=? String.length code)%nat && (String.length code <=? 6)%nat
  && alnumRegex_test code.

(** ** The constraints of the schema *)

(** Primary keys, unique columns and foreign keys of the three tables. *)
Record wellFormed (db : Db) : Prop := {
  wf_users_id : NoDup (map Users.id (users db));
  wf_users_email : NoDup (map Users.email (users db));
  wf_users_phone : NoDup (map Users.phone (users db));
  wf_sessions_id : NoDup (map Sessions.id (sessions db));
  wf_sessions_token : NoDup (map Sessions.token (sessions db));
  wf_tokens_id : NoDup (map Tokens.id (tokens db));
  wf_tokens_code : NoDup (map Tokens.code (tokens db));
  wf_sessions_user :
    incl (map Sessions.userId (sessions db)) (map Users.id (users db));
  wf_tokens_user :
    incl (map Tokens.userId (tokens db)) (map Users.id (users db))
}.

(** The language of [emailRegex], spelled out: a local part, [@], a domain
    head, a dot, a domain tail, each a non-empty run of characters that are
    neither white space nor [@]. *)
Definition emailShape (email : string) : Prop :=
  exists a b c : list ascii,
    list_ascii_of_string email = (a ++ "@"%char :: b ++ "."%char :: c)%list
    /\ a <> [] /\ b <> [] /\ c <> []
    /\ forallb is_plain a = true /\ forallb is_plain b = true
    /\ forallb is_plain c = true.

(** A draw function that stays in the range of [randomInt(0, 36)]. *)
Definition drawsInRange (randomInt : nat -> nat) : Prop :=
  forall i, (randomInt i < 36)%nat.

(** A token of some other user, and a store holding it beside alice's. *)
Definition other_token : Tokens.row :=
  {| Tokens.id := "t7"; Tokens.userId := "u7"; Tokens.code := "ZZZZZZ";
     Tokens.type := EMAIL; Tokens.status := PENDING; Tokens.createdAt := 2000;
     Tokens.updatedAt := 2000; Tokens.expiresAt := 602000 |}.

Definition db_two_tokens : Db :=
  {| users := [alice]; sessions := []; tokens := [alice_token; other_token] |}.

(** The rows the sign-up and sign-in handlers insert, named: the user row
    of [signUp] given the hash, and the session row both handlers build. *)
Definition newUserRow (req : SignUpRequest) (hashedPassword : string) (env : Env)
  : Users.row :=
  {| Users.id := newUserId env;
     Users.name := su_firstName req ++ " " ++ su_lastName req;
     Users.firstName := su_firstName req;
     Users.lastName := su_lastName req;
     Users.email := su_email req;
     Users.password := hashedPassword;
     Users.emailVerified := false;
     Users.phone := su_phone req;
     Users.phoneVerified := false;
     Users.role := FREE;
     Users.createdAt := dbNow env;
     Users.updatedAt := dbNow env |}.

Definition newSessionRow (uid : string) (c : Client) (env : Env) (expiresAt : Z)
  : Sessions.row :=
  {| Sessions.id := newSessionId env;
     Sessions.userId := uid;
     Sessions.token := newSessionToken env;
     Sessions.ipAddress := ip c;
     Sessions.userAgent := userAgentOrNull c;
     Sessions.expiresAt := expiresAt;
     Sessions.createdAt := dbNow env;
     Sessions.updatedAt := dbNow env |}.

(** The three field checks of [signUp], together. *)
Definition signUpShapeOk (req : SignUpRequest) : bool :=
  negb (is_empty (su_firstName req) || is_empty (su_lastName req)
        || is_empty (su_email req) || is_empty (su_phone req)
        || is_empty (su_password req))
  && emailRegex_test (su_email req)
  && negb (String.length (su_password req) <? 6)%nat.

(** The [where] clause of the pruning delete of [signIn]. *)
Definition expiredSessionOf (uid : string) (at_ : Z) (s : Sessions.row) : bool :=
  (Sessions.userId s =? uid) && (Sessions.expiresAt s <? at_)%Z.

(** A session of alice that ran out at 4000, one still running, and a
    store holding both. *)
Definition alice_old_session : Sessions.row :=
  {| Sessions.id := "s-old"; Sessions.userId := "u1"; Sessions.token := "tok-old";
     Sessions.ipAddress := None; Sessions.userAgent := None;
     Sessions.expiresAt := 4000; Sessions.createdAt := 1000;
     Sessions.updatedAt := 1000 |}.

Definition alice_live_session : Sessions.row :=
  {| Sessions.id := "s-live"; Sessions.userId := "u1"; Sessions.token := "tok-live";
     Sessions.ipAddress := None; Sessions.userAgent := None;
     Sessions.expiresAt := 90000; Sessions.createdAt := 1000;
     Sessions.updatedAt := 1000 |}.

Definition db_alice_sessions : Db :=
  {| users := [alice]; sessions := [alice_old_session; alice_live_session];
     tokens := [] |}.

(** What a request in flight relies on: the user row it read has the id it
    asked for, and, once it has superseded and until it inserts, that user
    has no active EMAIL token at the instant [at_]. *)
Definition pcConsistent (at_ : Z) (q : Request) (pc : Pc) (ts : list Tokens.row) : Prop :=
  match pc with
  | PcSelectValid u | PcExpire u => r_user q = Some (Users.id u)
  | PcInsert u =>
    r_user q = Some (Users.id u)
    /\ filter (activeFor (Users.id u) EMAIL at_) ts = []
  | _ => True
  end.

(** A second user, and a resend of his arriving with one of alice's. *)
Definition bob : Users.row :=
  {| Users.id := "u7"; Users.name := "B C"; Users.firstName := "B";
     Users.lastName := "C"; Users.email := "b@x.com";
     Users.password := "$2b$12$hash-of-secret7"; Users.emailVerified := false;
     Users.phone := "+1777"; Users.phoneVerified := false; Users.role := FREE;
     Users.createdAt := 1000; Users.updatedAt := 1000 |}.

Definition db_alice_bob : Db := {| users := [alice; bob]; sessions := []; tokens := [] |}.

Definition resend_bob : Request :=
  {| r_kind := IssueResend; r_user := Some "u7"; r_env := env_at 3000 "tB" draws_B |}.

(** An ASCII character: a code unit below 128. *)
Definition is_ascii7 (c : ascii) : bool := (nat_of_ascii c <? 128)%nat.

(** * Properties *)

(** ** Store lemmas *)

Lemma select_user_by_id uid us u :
  select_first (fun r => Users.id r =? uid) us = Some u ->
  In u us /\ Users.id u = uid.
Proof.
  unfold select_first. intros H. apply find_some in H.
  destruct H as [Hin He]. apply String.eqb_eq in He. split; assumption.
Qed.

Lemma select_user_exists uid us u :
  select_first (fun r => Users.id r =? uid) us = Some u ->
  existsb (fun r => Users.id r =? uid) us = true.
Proof.
  unfold select_first. intros H. apply find_some in H.
  apply existsb_exists. exists u. exact H.
Qed.

Lemma select_first_none {A} (p : A -> bool) l :
  (forall x, In x l -> p x = false) -> select_first p l = None.
Proof.
  unfold select_first. induction l as [|a l IH]; simpl; intros H.
  - reflexivity.
  - rewrite (H a (or_introl eq_refl)). apply IH.
    intros x Hx. apply H. right. exact Hx.
Qed.

Lemma insert_token_some t db db' :
  insert_token t db = Some db' ->
  db' = with_tokens (tokens db ++ [t]) db
  /\ existsb (fun r => Tokens.id r =? Tokens.id t) (tokens db) = false
  /\ existsb (fun r => Tokens.code r =? Tokens.code t) (tokens db) = false.
Proof.
  unfold insert_token. intros H.
  destruct (existsb (fun r => Tokens.id r =? Tokens.id t) (tokens db)); simpl in H;
    [discriminate|].
  destruct (existsb (fun r => Tokens.code r =? Tokens.code t) (tokens db)); simpl in H;
    [discriminate|].
  destruct (negb _); [discriminate|].
  inversion H. auto.
Qed.

Lemma insert_token_fresh t db :
  existsb (fun r => Tokens.id r =? Tokens.id t) (tokens db) = false ->
  existsb (fun r => Tokens.code r =? Tokens.code t) (tokens db) = false ->
  existsb (fun u => Users.id u =? Tokens.userId t) (users db) = true ->
  insert_token t db = Some (with_tokens (tokens db ++ [t]) db).
Proof.
  unfold insert_token. intros -> -> ->. reflexivity.
Qed.

(** Expiring tokens keeps ids and codes, so it keeps what an insert collides with. *)
Lemma existsb_update_status {B} (key : Tokens.row -> B) (eqb : B -> B -> bool)
      (k : B) (p : Tokens.row -> bool) (s : token_status) ts :
  (forall t, key (Tokens.set_status s t) = key t) ->
  existsb (fun r => eqb (key r) k) (update_where p (Tokens.set_status s) ts)
  = existsb (fun r => eqb (key r) k) ts.
Proof.
  intros Hkey. unfold update_where. induction ts as [|a ts IH]; simpl.
  - reflexivity.
  - rewrite IH. destruct (p a); [rewrite Hkey|]; reflexivity.
Qed.

(** ** Active tokens under expiry and insertion *)

Lemma activeFor_expired uid ty at_ t :
  activeFor uid ty at_ (Tokens.set_status EXPIRED t) = false.
Proof.
  unfold activeFor. simpl.
  rewrite andb_false_r. reflexivity.
Qed.

Lemma activeFor_email uid at_ t :
  activeFor uid EMAIL at_ t = true -> emailTokenOf uid t = true.
Proof.
  unfold activeFor, emailTokenOf. intros H.
  apply andb_prop in H. destruct H as [H _].
  apply andb_prop in H. destruct H as [H _]. exact H.
Qed.

Lemma active_count_expire_le p uid ty at_ ts :
  (List.length (filter (activeFor uid ty at_)
                       (update_where p (Tokens.set_status EXPIRED) ts))
   <= List.length (filter (activeFor uid ty at_) ts))%nat.
Proof.
  unfold update_where. induction ts as [|a ts IH]; simpl.
  - lia.
  - destruct (p a).
    + rewrite activeFor_expired.
      destruct (activeFor uid ty at_ a); simpl; lia.
    + destruct (activeFor uid ty at_ a); simpl; lia.
Qed.

Lemma no_active_after_expire uid at_ ts :
  filter (activeFor uid EMAIL at_)
         (update_where (emailTokenOf uid) (Tokens.set_status EXPIRED) ts) = [].
Proof.
  unfold update_where. induction ts as [|a ts IH]; simpl.
  - reflexivity.
  - destruct (emailTokenOf uid a) eqn:He.
    + rewrite activeFor_expired. exact IH.
    + destruct (activeFor uid EMAIL at_ a) eqn:Ha.
      * apply activeFor_email in Ha. congruence.
      * exact IH.
Qed.

Lemma expire_keeps_atMostOneActive uid at_ ts :
  atMostOneActive at_ ts ->
  atMostOneActive at_ (update_where (emailTokenOf uid) (Tokens.set_status EXPIRED) ts).
Proof.
  intros H uid' ty'.
  pose proof (active_count_expire_le (emailTokenOf uid) uid' ty' at_ ts).
  specialize (H uid' ty'). lia.
Qed.

Lemma supersede_keeps_atMostOneActive uid at_ ts newToken :
  Tokens.userId newToken = uid -> Tokens.type newToken = EMAIL ->
  atMostOneActive at_ ts ->
  atMostOneActive at_
    (update_where (emailTokenOf uid) (Tokens.set_status EXPIRED) ts ++ [newToken])%list.
Proof.
  intros Hu Hty H uid' ty'.
  rewrite filter_app, length_app. simpl.
  destruct (activeFor uid' ty' at_ newToken) eqn:Hact.
  - unfold activeFor in Hact. rewrite Hu, Hty in Hact.
    apply andb_prop in Hact. destruct Hact as [Hact _].
    apply andb_prop in Hact. destruct Hact as [Hact _].
    apply andb_prop in Hact. destruct Hact as [Huid Hty'].
    apply String.eqb_eq in Huid. subst uid'.
    destruct ty'; [|discriminate].
    rewrite no_active_after_expire. simpl. lia.
  - pose proof (active_count_expire_le (emailTokenOf uid) uid' ty' at_ ts).
    specialize (H uid' ty'). simpl. lia.
Qed.

(** ** The handlers are their statements run in order *)

Lemma run_alone_send reqUser env db :
  run_alone 5 {| r_kind := IssueSend; r_user := reqUser; r_env := env |}
            PcSelectUser {| w_db := db; w_outbox := [] |}
  = (PcDone (response (sendEmailVerificationCode reqUser env db)),
     {| w_db := store (sendEmailVerificationCode reqUser env db);
        w_outbox := outbox (sendEmailVerificationCode reqUser env db) |}).
Proof.
  unfold sendEmailVerificationCode. destruct reqUser as [uid|]; simpl; [|reflexivity].
  destruct (select_first _ (users db)) as [u|]; simpl; [|reflexivity].
  destruct (select_first _ (tokens db)) as [t|]; simpl; [reflexivity|].
  destruct (insert_token _ _) as [db2|]; simpl; reflexivity.
Qed.

Lemma run_alone_resend reqUser env db :
  run_alone 4 {| r_kind := IssueResend; r_user := reqUser; r_env := env |}
            PcSelectUser {| w_db := db; w_outbox := [] |}
  = (PcDone (response (resendEmailVerificationCode reqUser env db)),
     {| w_db := store (resendEmailVerificationCode reqUser env db);
        w_outbox := outbox (resendEmailVerificationCode reqUser env db) |}).
Proof.
  unfold resendEmailVerificationCode. destruct reqUser as [uid|]; simpl; [|reflexivity].
  destruct (select_first _ (users db)) as [u|]; simpl; [|reflexivity].
  destruct (insert_token _ _) as [db2|]; simpl; reflexivity.
Qed.

Lemma send_issuedTokens uid env db :
  issuedTokens uid (newEmailToken uid env (now2 env)) (tokens db)
    (tokens (store (sendEmailVerificationCode (Some uid) env db))).
Proof.
  unfold sendEmailVerificationCode, issuedTokens.
  destruct (select_first _ (users db)) as [u|] eqn:Hu; simpl; [|auto].
  apply select_user_by_id in Hu. destruct Hu as [_ ->].
  destruct (select_first _ (tokens db)) as [t|]; simpl; [auto|].
  destruct (insert_token _ _) as [db2|] eqn:Hi; simpl.
  - apply insert_token_some in Hi. destruct Hi as [-> _]. simpl. auto.
  - auto.
Qed.

Lemma resend_issuedTokens uid env db :
  issuedTokens uid (newEmailToken uid env (now env)) (tokens db)
    (tokens (store (resendEmailVerificationCode (Some uid) env db))).
Proof.
  unfold resendEmailVerificationCode, issuedTokens.
  destruct (select_first _ (users db)) as [u|] eqn:Hu; simpl; [|auto].
  apply select_user_by_id in Hu. destruct Hu as [_ ->].
  destruct (insert_token _ _) as [db2|] eqn:Hi; simpl.
  - apply insert_token_some in Hi. destruct Hi as [-> _]. simpl. auto.
  - auto.
Qed.

Lemma issuedTokens_atMostOneActive uid newToken before after at_ :
  Tokens.userId newToken = uid -> Tokens.type newToken = EMAIL ->
  issuedTokens uid newToken before after ->
  atMostOneActive at_ before -> atMostOneActive at_ after.
Proof.
  intros Hu Hty [-> | [-> | ->]] H.
  - exact H.
  - apply expire_keeps_atMostOneActive. exact H.
  - apply supersede_keeps_atMostOneActive; assumption.
Qed.

(** ** C1: at most one active token per (user, purpose) *)

(** C1 (amended).  An issuance that runs to completion with no other
    issuance in between keeps the invariant: at every instant [at_], if each
    (userId, purpose) pair has at most one PENDING token with [expiresAt]
    after [at_] before [sendEmailVerificationCode] or
    [resendEmailVerificationCode] runs, it has at most one afterwards.  The
    handler does so by first marking the user's EMAIL tokens EXPIRED and then
    inserting a single new PENDING token, as two separate store statements:
    the tokens left are the old ones untouched, the old ones superseded, or
    the old ones superseded followed by the one new token. *)
Theorem issuance_alone_keeps_atMostOneActive
    (uid : string) (env : Env) (db : Db) (at_ : Z) :
  atMostOneActive at_ (tokens db) ->
  (issuedTokens uid (newEmailToken uid env (now2 env)) (tokens db)
     (tokens (store (sendEmailVerificationCode (Some uid) env db)))
   /\ atMostOneActive at_
        (tokens (store (sendEmailVerificationCode (Some uid) env db))))
  /\ (issuedTokens uid (newEmailToken uid env (now env)) (tokens db)
        (tokens (store (resendEmailVerificationCode (Some uid) env db)))
      /\ atMostOneActive at_
           (tokens (store (resendEmailVerificationCode (Some uid) env db)))).
Proof.
  intros H. split; split.
  - apply send_issuedTokens.
  - apply (issuedTokens_atMostOneActive uid (newEmailToken uid env (now2 env))
             (tokens db)); auto using send_issuedTokens.
  - apply resend_issuedTokens.
  - apply (issuedTokens_atMostOneActive uid (newEmailToken uid env (now env))
             (tokens db)); auto using resend_issuedTokens.
Qed.

Lemma issuance_alone_keeps_atMostOneActive_witness :
  atMostOneActive 3001 (tokens db_alice_token)
  /\ atMostOneActive 3001
       (tokens (store (resendEmailVerificationCode
                         (Some "u1") (env_at 3000 "t1" draws_A) db_alice_token))).
Proof.
  assert (H : atMostOneActive 3001 (tokens db_alice_token)).
  { intros u ty. simpl.
    destruct (activeFor u ty 3001 alice_token); simpl; lia. }
  split; [exact H|].
  exact (proj2 (proj2 (issuance_alone_keeps_atMostOneActive
                         "u1" (env_at 3000 "t1" draws_A) db_alice_token 3001 H))).
Defined.

(** C1 (as stated) fails: supersede and insert are two statements, and two
    resend requests of one user whose statements alternate both insert.
    Both answer 200 and the user is left with two PENDING EMAIL tokens that
    expire in the future. *)
Lemma concurrent_resends_leave_two_active :
  atMostOneActive 3001 (tokens db_alice)
  /\ exists ra rb w,
       interleave alternate8 resend_A resend_B PcSelectUser PcSelectUser
                  {| w_db := db_alice; w_outbox := [] |}
       = (PcDone ra, PcDone rb, w)
       /\ status ra = 200 /\ status rb = 200
       /\ ~ atMostOneActive 3001 (tokens (w_db w)).
Proof.
  split.
  - intros u ty. simpl. lia.
  - eexists _, _, _. split; [vm_compute; reflexivity|].
    split; [reflexivity|]. split; [reflexivity|].
    intros H. specialize (H "u1" EMAIL). vm_compute in H. lia.
Qed.

(** ** C2: verification with no matching token *)

Lemma token_type_eqb_eq a b : token_type_eqb a b = true -> a = b.
Proof. destruct a, b; simpl; intros H; try reflexivity; discriminate. Qed.

Lemma token_status_eqb_eq a b : token_status_eqb a b = true -> a = b.
Proof. destruct a, b; simpl; intros H; try reflexivity; discriminate. Qed.

Lemma validEmailTokenWithCode_true uid code at_ t :
  validEmailTokenWithCode uid code at_ t = true ->
  Tokens.userId t = uid /\ Tokens.type t = EMAIL /\ Tokens.code t = code
  /\ Tokens.status t = PENDING /\ at_ < Tokens.expiresAt t.
Proof.
  unfold validEmailTokenWithCode. intros H.
  apply andb_prop in H. destruct H as [H Ht].
  apply andb_prop in H. destruct H as [H Hs].
  apply andb_prop in H. destruct H as [H Hy].
  apply andb_prop in H. destruct H as [Hu Hc].
  apply String.eqb_eq in Hu. apply String.eqb_eq in Hc.
  apply token_type_eqb_eq in Hy. apply token_status_eqb_eq in Hs.
  apply Z.ltb_lt in Ht. auto.
Qed.

Lemma select_user_present uid us u :
  In u us -> Users.id u = uid ->
  exists u', select_first (fun r => Users.id r =? uid) us = Some u'
             /\ Users.id u' = uid.
Proof.
  intros Hin Hid. unfold select_first.
  destruct (find (fun r => Users.id r =? uid) us) as [u'|] eqn:Hf.
  - exists u'. split; [reflexivity|].
    apply find_some in Hf. destruct Hf as [_ He]. apply String.eqb_eq in He. exact He.
  - pose proof (find_none _ _ Hf u Hin) as Hn. simpl in Hn.
    rewrite Hid, String.eqb_refl in Hn. discriminate.
Qed.

Lemma shape_ok_not_empty code :
  String.length code = 6%nat -> is_empty code = false.
Proof. destruct code; simpl; intros H; [discriminate|reflexivity]. Qed.

Lemma verify_no_match code uid env db u :
  String.length code = 6%nat ->
  alnumRegex_test code = true ->
  In u (users db) -> Users.id u = uid ->
  (forall t, In t (tokens db) ->
     validEmailTokenWithCode uid (toUpperCase code) (now env) t = false) ->
  verifyEmailVerificationCode code (Some uid) env db
  = {| response := internalServerError; store := db; outbox := [] |}.
Proof.
  intros Hlen Hal Hin Hid Hno. unfold verifyEmailVerificationCode.
  rewrite (shape_ok_not_empty code Hlen), Hlen, Hal. simpl.
  destruct (select_user_present uid (users db) u Hin Hid) as [u' [-> Hid']].
  rewrite Hid'. rewrite (select_first_none _ _ Hno). reflexivity.
Qed.

(** C2 (amended).  For an authenticated request whose code has the required
    shape, if no stored token matches (userId, EMAIL, uppercased code,
    PENDING, expiresAt > now) -- a PENDING token past its [expiresAt] does
    not match -- the handler answers with the generic 500
    "Internal Server Error" failure, and leaves the users (so the
    emailVerified flag) and all tokens as they were. *)
Theorem verify_without_matching_token_fails_unchanged
    (code uid : string) (env : Env) (db : Db) (u : Users.row) :
  String.length code = 6%nat ->
  alnumRegex_test code = true ->
  In u (users db) -> Users.id u = uid ->
  (forall t, In t (tokens db) ->
     ~ (Tokens.userId t = uid /\ Tokens.type t = EMAIL
        /\ Tokens.code t = toUpperCase code
        /\ Tokens.status t = PENDING /\ now env < Tokens.expiresAt t)) ->
  verifyEmailVerificationCode code (Some uid) env db
  = {| response := internalServerError; store := db; outbox := [] |}.
Proof.
  intros Hlen Hal Hin Hid Hno.
  apply (verify_no_match code uid env db u Hlen Hal Hin Hid).
  intros t Ht.
  destruct (validEmailTokenWithCode uid (toUpperCase code) (now env) t) eqn:Hv;
    [|reflexivity].
  exfalso. apply (Hno t Ht). apply validEmailTokenWithCode_true. exact Hv.
Qed.

Lemma verify_without_matching_token_fails_unchanged_witness :
  verifyEmailVerificationCode "abc123" (Some "u1") (env_at 700000 "t1" draws_A)
                              db_alice_token
  = {| response := internalServerError; store := db_alice_token; outbox := [] |}.
Proof.
  apply (verify_without_matching_token_fails_unchanged
           "abc123" "u1" (env_at 700000 "t1" draws_A) db_alice_token alice).
  - reflexivity.
  - reflexivity.
  - simpl. left. reflexivity.
  - reflexivity.
  - intros t [<-|[]] (_ & _ & _ & _ & H). simpl in H. unfold tenMinutes in H. lia.
Defined.

(** C2 (as stated) fails: with alice's token still PENDING but past its
    [expiresAt], verifying its code is answered 500 "Internal Server Error",
    which is the Internal outcome and not Rejected. *)
Lemma verify_elapsed_token_is_internal_not_rejected :
  response (verifyEmailVerificationCode "abc123" (Some "u1")
              (env_at 700000 "t1" draws_A) db_alice_token)
  = internalServerError
  /\ specOutcomeOf (response (verifyEmailVerificationCode "abc123" (Some "u1")
                                (env_at 700000 "t1" draws_A) db_alice_token))
     <> Rejected.
Proof.
  split; [reflexivity|]. vm_compute. discriminate.
Qed.

(** ** C3: re-issue within the validity window *)




Lemma select_first_some_of_in {A} (p : A -> bool) l x :
  In x l -> p x = true -> exists y, select_first p l = Some y.
Proof.
  unfold select_first. intros Hin Hp.
  destruct (find p l) as [y|] eqn:Hf.
  - exists y. reflexivity.
  - rewrite (find_none _ _ Hf x Hin) in Hp. discriminate.
Qed.

Lemma send_with_valid_token uid env db u' t0 :
  select_first (fun r => Users.id r =? uid) (users db) = Some u' ->
  select_first (validEmailTokenOf uid (now env)) (tokens db) = Some t0 ->
  sendEmailVerificationCode (Some uid) env db
  = {| response := okToken None t0; store := db; outbox := [] |}.
Proof.
  intros Hu Ht. unfold sendEmailVerificationCode. rewrite Hu.
  destruct (select_user_by_id _ _ _ Hu) as [_ ->]. rewrite Ht. reflexivity.
Qed.



(** ** C4: resend supersedes *)

Lemma resend_store uid env db u' :
  select_first (fun r => Users.id r =? uid) (users db) = Some u' ->
  users (store (resendEmailVerificationCode (Some uid) env db)) = users db
  /\ (tokens (store (resendEmailVerificationCode (Some uid) env db))
      = update_where (emailTokenOf uid) (Tokens.set_status EXPIRED) (tokens db)
      /\ insert_token (newEmailToken uid env (now env)) (expireEmailTokens uid db) = None
      \/ tokens (store (resendEmailVerificationCode (Some uid) env db))
         = (update_where (emailTokenOf uid) (Tokens.set_status EXPIRED) (tokens db)
            ++ [newEmailToken uid env (now env)])%list
         /\ existsb (fun r => Tokens.code r =? generateCode (codeDraws env)) (tokens db)
            = false).
Proof.
  intros Hu. unfold resendEmailVerificationCode. rewrite Hu.
  destruct (select_user_by_id _ _ _ Hu) as [_ ->].
  destruct (insert_token _ _) as [db2|] eqn:Hi; simpl.
  - apply insert_token_some in Hi. destruct Hi as (-> & _ & Hc).
    simpl in *. split; [reflexivity|]. right. split; [reflexivity|].
    rewrite <- Hc. symmetry.
    apply (existsb_update_status Tokens.code String.eqb). reflexivity.
  - split; [reflexivity|]. left. split; reflexivity.
Qed.

Lemma superseded_token_invalid uid code at_ ts t :
  In t (update_where (emailTokenOf uid) (Tokens.set_status EXPIRED) ts) ->
  validEmailTokenWithCode uid code at_ t = false.
Proof.
  unfold update_where. intros Hin. apply in_map_iff in Hin.
  destruct Hin as [x [Hx _]]. unfold validEmailTokenWithCode.
  destruct (emailTokenOf uid x) eqn:He; subst t.
  - simpl. rewrite andb_false_r. reflexivity.
  - unfold emailTokenOf in He.
    destruct (Tokens.userId x =? uid); simpl in *; [|reflexivity].
    rewrite He. rewrite andb_false_r. reflexivity.
Qed.

Lemma code_stored ts old c :
  In old ts -> Tokens.code old = c ->
  existsb (fun r => Tokens.code r =? c) ts = true.
Proof.
  intros Hin Hc. apply existsb_exists. exists old. split; [exact Hin|].
  rewrite Hc. apply String.eqb_refl.
Qed.

(** C4 (amended).  For every user with a row in the store, whatever tokens
    the user holds, [resendEmailVerificationCode]
    - marks every prior EMAIL token of the user EXPIRED and adds at most the
      one new token;
    - when the generated id and code are not already stored, inserts exactly
      one fresh token: PENDING, of type EMAIL, owned by the user, carrying
      the generated code, with expiresAt = now + 10 minutes;
    - leaves a store in which verifying the code of any prior token fails with
      the generic 500 failure and changes nothing. *)
Theorem resend_supersedes
    (uid : string) (env : Env) (db : Db) (u : Users.row) :
  In u (users db) -> Users.id u = uid ->
  (exists rest,
      tokens (store (resendEmailVerificationCode (Some uid) env db))
      = (update_where (emailTokenOf uid) (Tokens.set_status EXPIRED) (tokens db)
         ++ rest)%list
      /\ (rest = [] \/ rest = [newEmailToken uid env (now env)]))
  /\ (existsb (fun r => Tokens.id r =? newTokenId env) (tokens db) = false ->
      existsb (fun r => Tokens.code r =? generateCode (codeDraws env)) (tokens db)
      = false ->
      tokens (store (resendEmailVerificationCode (Some uid) env db))
      = (update_where (emailTokenOf uid) (Tokens.set_status EXPIRED) (tokens db)
         ++ [ {| Tokens.id := newTokenId env; Tokens.userId := uid;
                 Tokens.code := generateCode (codeDraws env);
                 Tokens.type := EMAIL; Tokens.status := PENDING;
                 Tokens.createdAt := dbNow env; Tokens.updatedAt := dbNow env;
                 Tokens.expiresAt := now env + 10 * 60 * 1000 |} ])%list)
  /\ (forall old code env',
        In old (tokens db) -> toUpperCase code = Tokens.code old ->
        String.length code = 6%nat -> alnumRegex_test code = true ->
        verifyEmailVerificationCode code (Some uid) env'
          (store (resendEmailVerificationCode (Some uid) env db))
        = {| response := internalServerError;
             store := store (resendEmailVerificationCode (Some uid) env db);
             outbox := [] |}).
Proof.
  intros Hin Hid.
  destruct (select_user_present uid (users db) u Hin Hid) as [u' [Hu _]].
  destruct (resend_store uid env db u' Hu) as [Husers Htok].
  split; [|split].
  - destruct Htok as [[-> _] | [-> _]].
    + exists []. rewrite app_nil_r. auto.
    + exists [newEmailToken uid env (now env)]. auto.
  - intros Hfid Hfcode.
    destruct Htok as [[_ Hi] | [-> _]]; [|reflexivity].
    rewrite insert_token_fresh in Hi; [discriminate| | |]; simpl.
    + rewrite <- Hfid. apply (existsb_update_status Tokens.id String.eqb). reflexivity.
    + rewrite <- Hfcode. apply (existsb_update_status Tokens.code String.eqb). reflexivity.
    + apply existsb_exists. exists u. split; [exact Hin|].
      rewrite Hid. apply String.eqb_refl.
  - intros old code env' Hold Hcode Hlen Hal.
    apply (verify_no_match code uid env' _ u Hlen Hal); [rewrite Husers; exact Hin|exact Hid|].
    intros t Ht.
    destruct Htok as [[Heq _] | [Heq Hfresh]]; rewrite Heq in Ht.
    + apply (superseded_token_invalid uid _ _ (tokens db)). exact Ht.
    + apply in_app_or in Ht. destruct Ht as [Ht | [<- | []]].
      * apply (superseded_token_invalid uid _ _ (tokens db)). exact Ht.
      * unfold validEmailTokenWithCode. simpl.
        destruct (generateCode (codeDraws env) =? toUpperCase code) eqn:Hc.
        -- apply String.eqb_eq in Hc.
           rewrite (code_stored (tokens db) old _ Hold) in Hfresh; [discriminate|].
           congruence.
        -- rewrite andb_false_r. reflexivity.
Qed.

Lemma resend_supersedes_witness :
  tokens (store (resendEmailVerificationCode
                   (Some "u1") (env_at 3000 "t1" draws_A) db_alice_token))
  = [ Tokens.set_status EXPIRED alice_token;
      {| Tokens.id := "t1"; Tokens.userId := "u1"; Tokens.code := "AAAAAA";
         Tokens.type := EMAIL; Tokens.status := PENDING;
         Tokens.createdAt := 3000; Tokens.updatedAt := 3000;
         Tokens.expiresAt := 3000 + 10 * 60 * 1000 |} ]
  /\ response (verifyEmailVerificationCode "abc123" (Some "u1")
                 (env_at 4000 "t2" draws_B)
                 (store (resendEmailVerificationCode
                           (Some "u1") (env_at 3000 "t1" draws_A) db_alice_token)))
     = internalServerError.
Proof.
  destruct (resend_supersedes "u1" (env_at 3000 "t1" draws_A) db_alice_token alice)
    as (_ & Hnew & Hold).
  - simpl. left. reflexivity.
  - reflexivity.
  - split.
    + rewrite Hnew; reflexivity.
    + rewrite (Hold alice_token "abc123" (env_at 4000 "t2" draws_B)).
      * reflexivity.
      * simpl. left. reflexivity.
      * reflexivity.
      * reflexivity.
      * reflexivity.
Defined.

(** C4 (as stated) fails twice over.  When the six draws spell a code that
    is already stored (here the code of the token being superseded), the
    insert violates [tokens_code_unique]: the prior token is EXPIRED and no
    new token exists.  And after an ordinary resend, verifying the old code
    is answered 500 "Internal Server Error", not Rejected. *)
Lemma resend_collision_and_old_code_internal :
  resendEmailVerificationCode (Some "u1") (env_at 3000 "t1" draws_ABC123)
                              db_alice_token
  = {| response := internalServerError;
       store := {| users := [alice]; sessions := [];
                   tokens := [Tokens.set_status EXPIRED alice_token] |};
       outbox := [] |}
  /\ specOutcomeOf
       (response (verifyEmailVerificationCode "ABC123" (Some "u1")
                    (env_at 4000 "t2" draws_B)
                    (store (resendEmailVerificationCode
                              (Some "u1") (env_at 3000 "t1" draws_A) db_alice_token))))
     <> Rejected.
Proof.
  split; [reflexivity|]. vm_compute. discriminate.
Qed.

(** ** C5: the two sign-in failures *)





(** ** C6: uniqueness of users *)

Lemma insert_user_some u db db' :
  insert_user u db = Some db' ->
  db' = with_users (users db ++ [u]) db
  /\ existsb (fun r => Users.email r =? Users.email u) (users db) = false
  /\ existsb (fun r => Users.phone r =? Users.phone u) (users db) = false.
Proof.
  unfold insert_user. intros H.
  destruct (negb _); [discriminate|].
  destruct (existsb (fun r => Users.id r =? Users.id u) (users db)); simpl in H;
    [discriminate|].
  destruct (existsb (fun r => Users.email r =? Users.email u) (users db)); simpl in H;
    [discriminate|].
  destruct (existsb (fun r => Users.phone r =? Users.phone u) (users db));
    [discriminate|].
  inversion H. auto.
Qed.

Lemma insert_session_some s db db' :
  insert_session s db = Some db' -> db' = with_sessions (sessions db ++ [s]) db.
Proof.
  unfold insert_session. intros H.
  destruct (_ || _ || _); [discriminate|]. inversion H. reflexivity.
Qed.

Lemma not_stored_notin {A} (key : A -> string) (k : string) l :
  existsb (fun r => key r =? k) l = false -> ~ In k (map key l).
Proof.
  intros He Hin. apply in_map_iff in Hin. destruct Hin as [x [Hk Hx]].
  assert (Ht : existsb (fun r => key r =? k) l = true).
  { apply existsb_exists. exists x. split; [exact Hx|]. rewrite Hk. apply String.eqb_refl. }
  congruence.
Qed.

Lemma NoDup_snoc {A} (l : list A) (x : A) :
  NoDup l -> ~ In x l -> NoDup (l ++ [x]).
Proof.
  intros Hl Hx. apply NoDup_app.
  - exact Hl.
  - constructor; [intros []|constructor].
  - intros a Ha [<-|[]]. exact (Hx Ha).
Qed.

(** The users a sign-up leaves: as before, or with the one new row appended
    when neither its email nor its phone was stored. *)
Lemma signUp_users bcrypt_hash req c env db :
  users (store (signUp bcrypt_hash req c env db)) = users db
  \/ exists newUser,
       users (store (signUp bcrypt_hash req c env db)) = (users db ++ [newUser])%list
       /\ Users.email newUser = su_email req /\ Users.phone newUser = su_phone req
       /\ existsb (fun r => Users.email r =? su_email req) (users db) = false
       /\ existsb (fun r => Users.phone r =? su_phone req) (users db) = false.
Proof.
  unfold signUp.
  destruct (_ || _ || _ || _ || _); [left; reflexivity|].
  destruct (negb _); [left; reflexivity|].
  destruct (_ <? _)%nat; [left; reflexivity|].
  destruct (negb (textOk _)); [left; reflexivity|].
  destruct (select_first _ _); [left; reflexivity|].
  destruct (insert_user _ db) as [db1|] eqn:Hi; [|left; reflexivity].
  right. match type of Hi with insert_user ?nu _ = _ => exists nu end.
  apply insert_user_some in Hi. destruct Hi as (-> & He & Hp). simpl in He, Hp.
  split; [|split; [reflexivity|split; [reflexivity|split; assumption]]].
  destruct (insert_session _ _) as [db2|] eqn:Hs; simpl.
  - apply insert_session_some in Hs. subst db2. reflexivity.
  - reflexivity.
Qed.

(** No sequence of sign-ups creates two users with one email or one phone. *)
Lemma signUp_keeps_users_unique bcrypt_hash req c env db :
  NoDup (map Users.email (users db)) -> NoDup (map Users.phone (users db)) ->
  NoDup (map Users.email (users (store (signUp bcrypt_hash req c env db))))
  /\ NoDup (map Users.phone (users (store (signUp bcrypt_hash req c env db)))).
Proof.
  intros He Hp.
  destruct (signUp_users bcrypt_hash req c env db)
    as [-> | [nu (-> & Hem & Hph & Hfe & Hfp)]]; [auto|].
  rewrite !map_app. simpl. rewrite Hem, Hph. split.
  - apply NoDup_snoc; [exact He|]. apply not_stored_notin. exact Hfe.
  - apply NoDup_snoc; [exact Hp|]. apply not_stored_notin. exact Hfp.
Qed.


(** C6 (code at the failing input).  Carol signs up with a new email and
    alice's phone: the handler looks for the email only, the insert then
    violates [users_phone_unique], and the answer is the generic 500
    "Internal Server Error", not 409 Conflict.  No user is created. *)
Theorem signUp_registered_phone_is_internal
    (bcrypt_hash : string -> Z -> string -> string) :
  signUp bcrypt_hash (signUp_carol "+1555") client0 (env_at 5000 "t1" draws_A) db_alice
  = {| response := {| status := 500; success := false;
                      message := Some "Internal Server Error";
                      data := NoData; cookie := None |};
       store := db_alice; outbox := [] |}
  /\ specOutcomeOf
       (response (signUp bcrypt_hash (signUp_carol "+1555") client0
                         (env_at 5000 "t1" draws_A) db_alice))
     <> Conflict.
Proof.
  assert (H : signUp bcrypt_hash (signUp_carol "+1555") client0
                     (env_at 5000 "t1" draws_A) db_alice
              = {| response := internalServerError; store := db_alice; outbox := [] |}).
  { unfold signUp, insert_user. simpl.
    destruct (textOk (bcrypt_hash _ _ _)); reflexivity. }
  rewrite H. split; [reflexivity|]. vm_compute. discriminate.
Qed.

(** ** C7: where the verification mail goes *)

(** C7 (code at the failing input).  Alice's address is a@x.com; the mail
    that carries her code, on send and on resend alike, is addressed to the
    fixed address bigtexascompsci@proton.me. *)
Theorem verification_mail_goes_to_fixed_address :
  map to (outbox (sendEmailVerificationCode (Some "u1") (env_at 3000 "t1" draws_A)
                                            db_alice))
  = ["bigtexascompsci@proton.me"]
  /\ map to (outbox (resendEmailVerificationCode (Some "u1")
                       (env_at 3000 "t1" draws_A) db_alice))
     = ["bigtexascompsci@proton.me"]
  /\ Users.email alice = "a@x.com"
  /\ ~ In (Users.email alice)
          (map to (outbox (sendEmailVerificationCode
                             (Some "u1") (env_at 3000 "t1" draws_A) db_alice))
           ++ map to (outbox (resendEmailVerificationCode
                                (Some "u1") (env_at 3000 "t1" draws_A) db_alice))).
Proof.
  split; [reflexivity|]. split; [reflexivity|]. split; [reflexivity|].
  simpl. intros [H|[H|[]]]; discriminate.
Qed.

(** Whatever the user and the store, a verification mail has that recipient. *)
Lemma verification_mail_recipient reqUser env db m :
  In m (outbox (sendEmailVerificationCode reqUser env db))
  \/ In m (outbox (resendEmailVerificationCode reqUser env db)) ->
  to m = "bigtexascompsci@proton.me".
Proof.
  unfold sendEmailVerificationCode, resendEmailVerificationCode.
  destruct reqUser as [uid|]; simpl; [|tauto].
  destruct (select_first _ (users db)) as [u|]; simpl; [|tauto].
  intros [H|H].
  - destruct (select_first _ (tokens db)); simpl in H; [tauto|].
    destruct (insert_token _ _); simpl in H; [|tauto].
    destruct H as [<-|[]]. reflexivity.
  - destruct (insert_token _ _); simpl in H; [|tauto].
    destruct H as [<-|[]]. reflexivity.
Qed.

(** ** C8: session lifetimes *)

(** The sessions a sign-up leaves: as before, or with one more, dated seven
    days after the clock reading, which is then the one named by the cookie
    of a 201 answer. *)
Lemma signUp_sessions bcrypt_hash req c env db :
  (sessions (store (signUp bcrypt_hash req c env db)) = sessions db
   /\ status (response (signUp bcrypt_hash req c env db)) <> 201)
  \/ exists s,
       sessions (store (signUp bcrypt_hash req c env db)) = (sessions db ++ [s])%list
       /\ Sessions.token s = newSessionToken env
       /\ Sessions.expiresAt s = now env + sevenDays.
Proof.
  unfold signUp.
  destruct (_ || _ || _ || _ || _); [left; split; [reflexivity|discriminate]|].
  destruct (negb _); [left; split; [reflexivity|discriminate]|].
  destruct (_ <? _)%nat; [left; split; [reflexivity|discriminate]|].
  destruct (negb (textOk _)); [left; split; [reflexivity|discriminate]|].
  destruct (select_first _ _); [left; split; [reflexivity|discriminate]|].
  destruct (insert_user _ db) as [db1|] eqn:Hi;
    [|left; split; [reflexivity|discriminate]].
  apply insert_user_some in Hi. destruct Hi as (-> & _ & _).
  destruct (insert_session _ _) as [db2|] eqn:Hs.
  - right. match type of Hs with insert_session ?s _ = _ => exists s end.
    apply insert_session_some in Hs. subst db2. simpl. auto.
  - left. split; [reflexivity|discriminate].
Qed.

(** The sessions a sign-in leaves: as before; or the ones it did not prune;
    or those followed by one more, dated by [rememberMe]. *)
Lemma signIn_sessions bcrypt_compare req c env db :
  ((forall s, In s (sessions (store (signIn bcrypt_compare req c env db))) ->
              In s (sessions db))
   /\ status (response (signIn bcrypt_compare req c env db)) <> 200)
  \/ exists kept s,
       sessions (store (signIn bcrypt_compare req c env db)) = (kept ++ [s])%list
       /\ (forall x, In x kept -> In x (sessions db))
       /\ Sessions.token s = newSessionToken env
       /\ Sessions.expiresAt s
          = now env + (if si_rememberMe req then sevenDays else oneDay).
Proof.
  unfold signIn.
  destruct (_ || _); [left; split; [auto|discriminate]|].
  destruct (negb (textOk _)); [left; split; [auto|discriminate]|].
  destruct (select_first _ _) as [user|]; [|left; split; [auto|discriminate]].
  destruct (negb _); [left; split; [auto|discriminate]|].
  destruct (insert_session _ _) as [db2|] eqn:Hs.
  - right.
    match type of Hs with
      insert_session ?s (with_sessions ?kept _) = _ => exists kept, s
    end.
    apply insert_session_some in Hs. subst db2. simpl.
    split; [reflexivity|]. split; [|split; reflexivity].
    intros x Hx. unfold delete_where in Hx. apply filter_In in Hx. tauto.
  - left. split; [|discriminate]. simpl. intros s Hin.
    unfold delete_where in Hin. apply filter_In in Hin. tauto.
Qed.

(** C8.  A session that [signUp] adds to the store expires seven days after
    the handler's clock reading; a session that [signIn] adds expires seven
    days after it when rememberMe is true and twenty-four hours after it
    when rememberMe is false.  A 201 from [signUp] and a 200 from [signIn]
    each come with such a session, the one whose token the cookie carries. *)
Theorem session_ttl_policy
    (bcrypt_hash : string -> Z -> string -> string)
    (bcrypt_compare : string -> string -> bool)
    (up : SignUpRequest) (inn : SignInRequest) (c : Client) (env : Env) (db : Db) :
  (forall s, In s (sessions (store (signUp bcrypt_hash up c env db))) ->
             ~ In s (sessions db) ->
             Sessions.expiresAt s = now env + 7 * 24 * 60 * 60 * 1000)
  /\ (forall s, In s (sessions (store (signIn bcrypt_compare inn c env db))) ->
                ~ In s (sessions db) ->
                Sessions.expiresAt s
                = now env + (if si_rememberMe inn then 7 * 24 * 60 * 60 * 1000
                             else 24 * 60 * 60 * 1000))
  /\ (status (response (signUp bcrypt_hash up c env db)) = 201 ->
      exists s, In s (sessions (store (signUp bcrypt_hash up c env db)))
                /\ Sessions.token s = newSessionToken env
                /\ Sessions.expiresAt s = now env + 7 * 24 * 60 * 60 * 1000)
  /\ (status (response (signIn bcrypt_compare inn c env db)) = 200 ->
      exists s, In s (sessions (store (signIn bcrypt_compare inn c env db)))
                /\ Sessions.token s = newSessionToken env
                /\ Sessions.expiresAt s
                   = now env + (if si_rememberMe inn then 7 * 24 * 60 * 60 * 1000
                                else 24 * 60 * 60 * 1000)).
Proof.
  change (7 * 24 * 60 * 60 * 1000) with sevenDays.
  change (24 * 60 * 60 * 1000) with oneDay.
  destruct (signUp_sessions bcrypt_hash up c env db) as [[Hu Hu']|[su (Hu & Hut & Hue)]];
  destruct (signIn_sessions bcrypt_compare inn c env db)
    as [[Hi Hi']|[kept [si (Hi & Hik & Hit & Hie)]]];
  repeat split.
  all: try (intros s Hin Hnot; rewrite Hu in Hin; contradiction).
  all: try (intros s Hin Hnot; exfalso; apply Hnot; apply Hi; exact Hin).
  all: try (intros Hst; contradiction).
  all: try (intros s Hin Hnot; rewrite Hu in Hin; apply in_app_or in Hin;
            destruct Hin as [Hin|[<-|[]]]; [contradiction|exact Hue]).
  all: try (intros s Hin Hnot; rewrite Hi in Hin; apply in_app_or in Hin;
            destruct Hin as [Hin|[<-|[]]];
            [exfalso; apply Hnot; apply Hik; exact Hin|exact Hie]).
  all: try (intros _; exists su; rewrite Hu; split;
            [apply in_or_app; right; left; reflexivity|split; assumption]).
  all: try (intros _; exists si; rewrite Hi; split;
            [apply in_or_app; right; left; reflexivity|split; assumption]).
Qed.

Lemma session_ttl_policy_witness :
  (exists s, In s (sessions (store (signUp sample_hash (signUp_carol "+1777") client0
                                           (env_at 5000 "t1" draws_A) db_alice)))
             /\ Sessions.expiresAt s = 5000 + 604800000)
  /\ (exists s, In s (sessions (store (signIn sample_compare (signIn_alice true) client0
                                              (env_at 5000 "t1" draws_A) db_alice)))
                /\ Sessions.expiresAt s = 5000 + 604800000)
  /\ (exists s, In s (sessions (store (signIn sample_compare (signIn_alice false) client0
                                              (env_at 5000 "t1" draws_A) db_alice)))
                /\ Sessions.expiresAt s = 5000 + 86400000).
Proof.
  split; [|split].
  - destruct (proj1 (proj2 (proj2
        (session_ttl_policy sample_hash sample_compare (signUp_carol "+1777")
           (signIn_alice true) client0 (env_at 5000 "t1" draws_A) db_alice)))
        eq_refl) as [s (Hin & _ & He)].
    exists s. split; [exact Hin|exact He].
  - destruct (proj2 (proj2 (proj2
        (session_ttl_policy sample_hash sample_compare (signUp_carol "+1777")
           (signIn_alice true) client0 (env_at 5000 "t1" draws_A) db_alice)))
        eq_refl) as [s (Hin & _ & He)].
    exists s. split; [exact Hin|exact He].
  - destruct (proj2 (proj2 (proj2
        (session_ttl_policy sample_hash sample_compare (signUp_carol "+1777")
           (signIn_alice false) client0 (env_at 5000 "t1" draws_A) db_alice)))
        eq_refl) as [s (Hin & _ & He)].
    exists s. split; [exact Hin|exact He].
Defined.

(** ** C9: the code in the response *)

Lemma send_fresh uid env db u :
  In u (users db) -> Users.id u = uid ->
  (forall x, In x (tokens db) -> validEmailTokenOf uid (now env) x = false) ->
  existsb (fun r => Tokens.id r =? newTokenId env) (tokens db) = false ->
  existsb (fun r => Tokens.code r =? generateCode (codeDraws env)) (tokens db) = false ->
  exists u',
    In u' (users db) /\ Users.id u' = uid
    /\ sendEmailVerificationCode (Some uid) env db
       = {| response := if sendError env then internalServerError
                        else okToken (Some "Verification code sent successfully")
                                     (newEmailToken uid env (now2 env));
            store := with_tokens
                       (update_where (emailTokenOf uid) (Tokens.set_status EXPIRED)
                                     (tokens db)
                        ++ [newEmailToken uid env (now2 env)])
                       (expireEmailTokens uid db);
            outbox := [verificationEmail "Email Verification Code" u'
                                         (generateCode (codeDraws env))] |}.
Proof.
  intros Hin Hid Hnone Hfid Hfcode.
  destruct (select_user_present uid (users db) u Hin Hid) as [u' [Hu Hid']].
  exists u'. split; [apply (select_user_by_id _ _ _ Hu)|]. split; [exact Hid'|].
  unfold sendEmailVerificationCode. rewrite Hu, Hid'.
  rewrite (select_first_none _ _ Hnone).
  rewrite insert_token_fresh; [reflexivity| | |]; simpl.
  - rewrite <- Hfid. apply (existsb_update_status Tokens.id String.eqb). reflexivity.
  - rewrite <- Hfcode. apply (existsb_update_status Tokens.code String.eqb). reflexivity.
  - apply (select_user_exists _ _ _ Hu).
Qed.

Lemma resend_fresh uid env db u :
  In u (users db) -> Users.id u = uid ->
  existsb (fun r => Tokens.id r =? newTokenId env) (tokens db) = false ->
  existsb (fun r => Tokens.code r =? generateCode (codeDraws env)) (tokens db) = false ->
  exists u',
    In u' (users db) /\ Users.id u' = uid
    /\ resendEmailVerificationCode (Some uid) env db
       = {| response := if sendError env then internalServerError
                        else okToken None (newEmailToken uid env (now env));
            store := with_tokens
                       (update_where (emailTokenOf uid) (Tokens.set_status EXPIRED)
                                     (tokens db)
                        ++ [newEmailToken uid env (now env)])
                       (expireEmailTokens uid db);
            outbox := [verificationEmail "Email Verification Code - Resent" u'
                                         (generateCode (codeDraws env))] |}.
Proof.
  intros Hin Hid Hfid Hfcode.
  destruct (select_user_present uid (users db) u Hin Hid) as [u' [Hu Hid']].
  exists u'. split; [apply (select_user_by_id _ _ _ Hu)|]. split; [exact Hid'|].
  unfold resendEmailVerificationCode. rewrite Hu, Hid'.
  rewrite insert_token_fresh; [reflexivity| | |]; simpl.
  - rewrite <- Hfid. apply (existsb_update_status Tokens.id String.eqb). reflexivity.
  - rewrite <- Hfcode. apply (existsb_update_status Tokens.code String.eqb). reflexivity.
  - apply (select_user_exists _ _ _ Hu).
Qed.

(** C9.  Every successful response of [sendEmailVerificationCode] and of
    [resendEmailVerificationCode] carries the code in the clear, and each of
    the three ways to a successful response is taken:
    - whenever either handler answers with success, the body holds a token
      object whose [code] is the code of a PENDING token of that user held
      in the store;
    - re-issue: when the user holds a valid token, send answers 200 with
      the token object of a stored valid token, its code included;
    - fresh issue: when the user holds no valid token, the generated id and
      code are not stored yet and the mail goes out, send answers 200 with
      the token object of the new token, whose [code] is the generated code;
    - resend: when the generated id and code are not stored yet and the
      mail goes out, resend answers 200 with the token object of the new
      token, whose [code] is the generated code. *)
Theorem issuance_response_carries_code (uid : string) (env : Env) (db : Db) :
  (success (response (sendEmailVerificationCode (Some uid) env db)) = true ->
   exists t view,
     In t (tokens (store (sendEmailVerificationCode (Some uid) env db)))
     /\ Tokens.userId t = uid /\ Tokens.status t = PENDING
     /\ data (response (sendEmailVerificationCode (Some uid) env db)) = TokenData view
     /\ tv_code view = Tokens.code t)
  /\ (success (response (resendEmailVerificationCode (Some uid) env db)) = true ->
      exists t view,
        In t (tokens (store (resendEmailVerificationCode (Some uid) env db)))
        /\ Tokens.userId t = uid /\ Tokens.status t = PENDING
        /\ data (response (resendEmailVerificationCode (Some uid) env db))
           = TokenData view
        /\ tv_code view = Tokens.code t
        /\ tv_code view = generateCode (codeDraws env))
  /\ (forall u t,
        In u (users db) -> Users.id u = uid ->
        In t (tokens db) -> validEmailTokenOf uid (now env) t = true ->
        exists t0,
          In t0 (tokens db) /\ validEmailTokenOf uid (now env) t0 = true
          /\ response (sendEmailVerificationCode (Some uid) env db)
             = {| status := 200; success := true; message := None;
                  data := TokenData
                            {| tv_id := Tokens.id t0; tv_userId := Tokens.userId t0;
                               tv_code := Tokens.code t0; tv_type := Tokens.type t0;
                               tv_status := Tokens.status t0;
                               tv_createdAt := Tokens.createdAt t0;
                               tv_updatedAt := Tokens.updatedAt t0;
                               tv_expiresAt := Tokens.expiresAt t0 |};
                  cookie := None |})
  /\ (forall u,
        In u (users db) -> Users.id u = uid ->
        (forall x, In x (tokens db) -> validEmailTokenOf uid (now env) x = false) ->
        existsb (fun r => Tokens.id r =? newTokenId env) (tokens db) = false ->
        existsb (fun r => Tokens.code r =? generateCode (codeDraws env)) (tokens db)
        = false ->
        sendError env = false ->
        response (sendEmailVerificationCode (Some uid) env db)
        = {| status := 200; success := true;
             message := Some "Verification code sent successfully";
             data := TokenData
                       {| tv_id := newTokenId env; tv_userId := uid;
                          tv_code := generateCode (codeDraws env);
                          tv_type := EMAIL; tv_status := PENDING;
                          tv_createdAt := dbNow env; tv_updatedAt := dbNow env;
                          tv_expiresAt := now2 env + 10 * 60 * 1000 |};
             cookie := None |})
  /\ (forall u,
        In u (users db) -> Users.id u = uid ->
        existsb (fun r => Tokens.id r =? newTokenId env) (tokens db) = false ->
        existsb (fun r => Tokens.code r =? generateCode (codeDraws env)) (tokens db)
        = false ->
        sendError env = false ->
        response (resendEmailVerificationCode (Some uid) env db)
        = {| status := 200; success := true; message := None;
             data := TokenData
                       {| tv_id := newTokenId env; tv_userId := uid;
                          tv_code := generateCode (codeDraws env);
                          tv_type := EMAIL; tv_status := PENDING;
                          tv_createdAt := dbNow env; tv_updatedAt := dbNow env;
                          tv_expiresAt := now env + 10 * 60 * 1000 |};
             cookie := None |}).
Proof.
  split; [|split; [|split; [|split]]].
  - unfold sendEmailVerificationCode.
    destruct (select_first _ (users db)) as [u|] eqn:Hu; simpl; [|discriminate].
    destruct (select_user_by_id _ _ _ Hu) as [_ ->].
    destruct (select_first _ (tokens db)) as [t0|] eqn:Ht; simpl.
    + intros _. unfold select_first in Ht. apply find_some in Ht.
      destruct Ht as [Hin Hv]. exists t0, (tokenView t0).
      unfold validEmailTokenOf, pendingEmailTokenOf, emailTokenOf in Hv.
      apply andb_prop in Hv. destruct Hv as [Hv _].
      apply andb_prop in Hv. destruct Hv as [Hv Hs].
      apply andb_prop in Hv. destruct Hv as [Hv _].
      apply String.eqb_eq in Hv. apply token_status_eqb_eq in Hs.
      repeat split; assumption.
    + destruct (insert_token _ _) as [db2|] eqn:Hi; simpl; [|discriminate].
      apply insert_token_some in Hi. destruct Hi as (-> & _ & _).
      destruct (sendError env); simpl; [discriminate|]. intros _.
      exists (newEmailToken uid env (now2 env)), (tokenView (newEmailToken uid env (now2 env))).
      repeat split. apply in_or_app. right. left. reflexivity.
  - unfold resendEmailVerificationCode.
    destruct (select_first _ (users db)) as [u|] eqn:Hu; simpl; [|discriminate].
    destruct (select_user_by_id _ _ _ Hu) as [_ ->].
    destruct (insert_token _ _) as [db2|] eqn:Hi; simpl; [|discriminate].
    apply insert_token_some in Hi. destruct Hi as (-> & _ & _).
    destruct (sendError env); simpl; [discriminate|]. intros _.
    exists (newEmailToken uid env (now env)), (tokenView (newEmailToken uid env (now env))).
    repeat split. apply in_or_app. right. left. reflexivity.
  - intros u t Hin Hid Ht Hv.
    destruct (select_user_present uid (users db) u Hin Hid) as [u' [Hu _]].
    destruct (select_first_some_of_in _ _ _ Ht Hv) as [t0 Hs].
    pose proof Hs as Hs'. unfold select_first in Hs'. apply find_some in Hs'.
    destruct Hs' as [Hin0 Hv0].
    exists t0. split; [exact Hin0|]. split; [exact Hv0|].
    rewrite (send_with_valid_token uid env db u' t0 Hu Hs). reflexivity.
  - intros u Hin Hid Hnone Hfid Hfcode Hmail.
    destruct (send_fresh uid env db u Hin Hid Hnone Hfid Hfcode) as [u' (_ & _ & ->)].
    cbn [response]. rewrite Hmail. reflexivity.
  - intros u Hin Hid Hfid Hfcode Hmail.
    destruct (resend_fresh uid env db u Hin Hid Hfid Hfcode) as [u' (_ & _ & ->)].
    cbn [response]. rewrite Hmail. reflexivity.
Qed.

Lemma issuance_response_carries_code_witness :
  (exists view,
     data (response (sendEmailVerificationCode
                       (Some "u1") (env_at 3000 "t1" draws_A) db_alice_token))
     = TokenData view
     /\ tv_code view = "ABC123")
  /\ (exists view,
        data (response (sendEmailVerificationCode
                          (Some "u1") (env_at 3000 "t1" draws_A) db_alice))
        = TokenData view
        /\ tv_code view = "AAAAAA")
  /\ (exists view,
        data (response (resendEmailVerificationCode
                          (Some "u1") (env_at 3000 "t1" draws_B) db_alice_token))
        = TokenData view
        /\ tv_code view = "BBBBBB")
  /\ (exists t view,
        In t (tokens (store (resendEmailVerificationCode
                               (Some "u1") (env_at 3000 "t1" draws_B) db_alice_token)))
        /\ data (response (resendEmailVerificationCode
                             (Some "u1") (env_at 3000 "t1" draws_B) db_alice_token))
           = TokenData view
        /\ tv_code view = Tokens.code t).
Proof.
  split; [|split; [|split]].
  - destruct (proj1 (proj2 (proj2 (issuance_response_carries_code
                                     "u1" (env_at 3000 "t1" draws_A) db_alice_token)))
                alice alice_token)
      as [t0 (Hin & _ & Hr)].
    + simpl. left. reflexivity.
    + reflexivity.
    + simpl. left. reflexivity.
    + reflexivity.
    + rewrite Hr. eexists. split; [reflexivity|].
      destruct Hin as [<-|[]]. reflexivity.
  - rewrite (proj1 (proj2 (proj2 (proj2 (issuance_response_carries_code
                                           "u1" (env_at 3000 "t1" draws_A) db_alice))))
               alice).
    + eexists. split; reflexivity.
    + simpl. left. reflexivity.
    + reflexivity.
    + intros x [].
    + reflexivity.
    + reflexivity.
    + reflexivity.
  - rewrite (proj2 (proj2 (proj2 (proj2 (issuance_response_carries_code
                                           "u1" (env_at 3000 "t1" draws_B)
                                           db_alice_token))))
               alice).
    + eexists. split; reflexivity.
    + simpl. left. reflexivity.
    + reflexivity.
    + reflexivity.
    + reflexivity.
    + reflexivity.
  - destruct (proj1 (proj2 (issuance_response_carries_code
                              "u1" (env_at 3000 "t1" draws_B) db_alice_token)) eq_refl)
      as [t [view (Hin & _ & _ & Hd & Hc & _)]].
    exists t, view. split; [exact Hin|]. split; [exact Hd|exact Hc].
Defined.

(** ** C10: the current user is read from the store *)

(** C10.  [getCurrentUser] with [req.user] set answers from the users table
    as it is at the call and never writes: when no row has the resolved id
    the answer is 401 "Unauthorized"; when one has, the answer is 200 and
    each of the eight fields of the returned user is the field of a stored
    row with that id. *)
Theorem getCurrentUser_reads_store (uid : string) (db : Db) :
  store (getCurrentUser (Some uid) db) = db
  /\ ((forall u, In u (users db) -> Users.id u <> uid) ->
      response (getCurrentUser (Some uid) db)
      = {| status := 401; success := false; message := Some "Unauthorized";
           data := NoData; cookie := None |})
  /\ (forall u, In u (users db) -> Users.id u = uid ->
      exists row,
        In row (users db) /\ Users.id row = uid
        /\ response (getCurrentUser (Some uid) db)
           = {| status := 200; success := true; message := None;
                data := UserData
                          {| uv_id := Users.id row;
                             uv_firstName := Users.firstName row;
                             uv_lastName := Users.lastName row;
                             uv_email := Users.email row;
                             uv_phone := Users.phone row;
                             uv_role := Users.role row;
                             uv_emailVerified := Users.emailVerified row;
                             uv_phoneVerified := Users.phoneVerified row |};
                cookie := None |}).
Proof.
  unfold getCurrentUser. split; [|split].
  - destruct (select_first _ (users db)); reflexivity.
  - intros Hno. rewrite select_first_none; [reflexivity|].
    intros u Hu. destruct (Users.id u =? uid) eqn:He; [|reflexivity].
    apply String.eqb_eq in He. exfalso. exact (Hno u Hu He).
  - intros u Hin Hid.
    destruct (select_user_present uid (users db) u Hin Hid) as [row [Hs Hrow]].
    rewrite Hs. destruct (select_user_by_id _ _ _ Hs) as [Hin' _].
    exists row. repeat split; assumption.
Qed.

Lemma getCurrentUser_reads_store_witness :
  response (getCurrentUser (Some "u9") db_alice) = unauthorized
  /\ exists row,
       In row (users db_alice)
       /\ data (response (getCurrentUser (Some "u1") db_alice)) = UserData (userView row).
Proof.
  split.
  - apply (proj1 (proj2 (getCurrentUser_reads_store "u9" db_alice))).
    intros u [<-|[]]. simpl. discriminate.
  - destruct (proj2 (proj2 (getCurrentUser_reads_store "u1" db_alice)) alice)
      as [row (Hin & _ & Hr)].
    + simpl. left. reflexivity.
    + reflexivity.
    + exists row. split; [exact Hin|]. rewrite Hr. reflexivity.
Defined.

(** ** A run through the whole flow *)

(** Alice signs up (201, emailVerified false), asks for a code and gets a
    six-character one, asks again seconds later and gets the same one,
    verifies it in lower case (200), is then shown as verified, and cannot
    verify the same code twice. *)
Example scenario_verify_email :
  let r1 := signUp sample_hash signUp_alice client0 (env_at 1000 "t0" draws_A) db_empty in
  let r2 := sendEmailVerificationCode (Some "u2") (env_at 2000 "t1" draws_ABC123) (store r1) in
  let r2' := sendEmailVerificationCode (Some "u2") (env_at 2500 "t9" draws_B) (store r2) in
  let r3 := verifyEmailVerificationCode "abc123" (Some "u2") (env_at 3000 "t2" draws_A) (store r2') in
  let r4 := getCurrentUser (Some "u2") (store r3) in
  let r5 := verifyEmailVerificationCode "abc123" (Some "u2") (env_at 4000 "t3" draws_A) (store r3) in
  status (response r1) = 201
  /\ map Users.emailVerified (users (store r1)) = [false]
  /\ map Tokens.code (tokens (store r2)) = ["ABC123"]
  /\ data (response r2') = data (response r2)
  /\ store r2' = store r2
  /\ status (response r3) = 200
  /\ map Tokens.status (tokens (store r3)) = [EXPIRED]
  /\ (exists v, data (response r4) = UserData v /\ uv_emailVerified v = true)
  /\ status (response r5) = 500
  /\ store r5 = store r3.
Proof.
  repeat split; try reflexivity.
  eexists. split; reflexivity.
Qed.

(** * Further properties of the controller *)

(** ** Strings: upper-casing and the code alphabet *)

Lemma is_alnum_upper c : is_alnum (upper_ascii c) = is_alnum c.
Proof. destruct c as [[] [] [] [] [] [] [] []]; reflexivity. Qed.

Lemma upper_ascii_idem c : upper_ascii (upper_ascii c) = upper_ascii c.
Proof. destruct c as [[] [] [] [] [] [] [] []]; reflexivity. Qed.

Lemma toUpperCase_idem s : toUpperCase (toUpperCase s) = toUpperCase s.
Proof.
  induction s as [|c s IH]; simpl; [reflexivity|].
  rewrite upper_ascii_idem, IH. reflexivity.
Qed.

Lemma toUpperCase_length s : String.length (toUpperCase s) = String.length s.
Proof. induction s as [|c s IH]; simpl; [reflexivity|]. rewrite IH. reflexivity. Qed.

Lemma toUpperCase_is_empty s : is_empty (toUpperCase s) = is_empty s.
Proof. destruct s; reflexivity. Qed.

Lemma toUpperCase_alnum s :
  string_forallb is_alnum (toUpperCase s) = string_forallb is_alnum s.
Proof.
  induction s as [|c s IH]; simpl; [reflexivity|].
  rewrite is_alnum_upper, IH. reflexivity.
Qed.

Lemma toUpperCase_alnumRegex s : alnumRegex_test (toUpperCase s) = alnumRegex_test s.
Proof.
  unfold alnumRegex_test. rewrite toUpperCase_alnum.
  destruct s; reflexivity.
Qed.

Lemma toUpperCase_app s1 s2 :
  toUpperCase (s1 ++ s2) = toUpperCase s1 ++ toUpperCase s2.
Proof. induction s1 as [|c s1 IH]; simpl; [reflexivity|]. rewrite IH. reflexivity. Qed.

Lemma string_forallb_app p s1 s2 :
  string_forallb p (s1 ++ s2) = string_forallb p s1 && string_forallb p s2.
Proof.
  induction s1 as [|c s1 IH]; simpl; [reflexivity|].
  rewrite IH. apply andb_assoc.
Qed.

Lemma string_length_app s1 s2 :
  String.length (s1 ++ s2) = (String.length s1 + String.length s2)%nat.
Proof. induction s1 as [|c s1 IH]; simpl; [reflexivity|]. rewrite IH. reflexivity. Qed.

Lemma char_at_characters r :
  (r < 36)%nat ->
  exists c, char_at characters r = String c EmptyString
            /\ is_alnum c = true /\ upper_ascii c = c.
Proof.
  intros H.
  do 36 (destruct r as [|r]; [eexists; repeat split; reflexivity|]).
  lia.
Qed.

Lemma generateCode_loop_shape randomInt :
  drawsInRange randomInt ->
  forall n i result,
    string_forallb is_alnum result = true -> toUpperCase result = result ->
    String.length (generateCode_loop n i randomInt result)
    = (String.length result + n)%nat
    /\ string_forallb is_alnum (generateCode_loop n i randomInt result) = true
    /\ toUpperCase (generateCode_loop n i randomInt result)
       = generateCode_loop n i randomInt result.
Proof.
  intros Hr. induction n as [|n IH]; intros i result Hal Hup; simpl.
  - rewrite Nat.add_0_r. auto.
  - destruct (char_at_characters (randomInt i) (Hr i)) as [c (Hc & Hca & Hcu)].
    destruct (IH (S i) (result ++ char_at characters (randomInt i))) as (Hl & Ha & Hu).
    + rewrite string_forallb_app, Hal, Hc. simpl. rewrite Hca. reflexivity.
    + rewrite toUpperCase_app, Hup, Hc. simpl. rewrite Hcu. reflexivity.
    + split; [|split; assumption].
      rewrite Hl, string_length_app, Hc. simpl. lia.
Qed.

Lemma generateCode_passes_shape randomInt :
  drawsInRange randomInt ->
  String.length (generateCode randomInt) = 6%nat
  /\ alnumRegex_test (generateCode randomInt) = true.
Proof.
  intros Hr.
  destruct (generateCode_loop_shape randomInt Hr 6 0 EmptyString eq_refl eq_refl)
    as (Hl & Ha & _).
  fold (generateCode randomInt) in Hl, Ha. simpl in Hl. split; [exact Hl|].
  unfold alnumRegex_test. rewrite Ha.
  destruct (generateCode randomInt); [discriminate|reflexivity].
Qed.

(** X1.  Whenever the six draws are in the range of [randomInt(0, 36)], the
    generated code has exactly six characters, all of them letters or
    digits, and is its own upper case: it passes the shape check of the
    verification handler and of the form, and the upper-cased lookup
    searches for the code exactly as issued. *)
Theorem generateCode_shape (randomInt : nat -> nat) :
  drawsInRange randomInt ->
  String.length (generateCode randomInt) = 6%nat
  /\ alnumRegex_test (generateCode randomInt) = true
  /\ toUpperCase (generateCode randomInt) = generateCode randomInt
  /\ formSchema_accepts (generateCode randomInt) = true.
Proof.
  intros Hr.
  destruct (generateCode_loop_shape randomInt Hr 6 0 EmptyString eq_refl eq_refl)
    as (Hl & Ha & Hu).
  fold (generateCode randomInt) in Hl, Ha, Hu. simpl in Hl.
  assert (Hre : alnumRegex_test (generateCode randomInt) = true).
  { unfold alnumRegex_test. rewrite Ha.
    destruct (generateCode randomInt); [discriminate|reflexivity]. }
  repeat split; try assumption.
  unfold formSchema_accepts. rewrite Hl, Hre. reflexivity.
Qed.

Lemma generateCode_shape_witness :
  drawsInRange draws_ABC123
  /\ String.length (generateCode draws_ABC123) = 6%nat
  /\ toUpperCase (generateCode draws_ABC123) = "ABC123".
Proof.
  assert (H : drawsInRange draws_ABC123).
  { intros i. unfold draws_ABC123.
    do 6 (destruct i as [|i]; [simpl; lia|]). destruct i; simpl; lia. }
  split; [exact H|].
  destruct (generateCode_shape draws_ABC123 H) as (Hl & _ & Hu & _).
  split; [exact Hl|]. rewrite Hu. reflexivity.
Defined.

(** ** The email pattern *)

Lemma span_plain_spec s :
  s = (fst (span_plain s) ++ snd (span_plain s))%list
  /\ forallb is_plain (fst (span_plain s)) = true
  /\ (snd (span_plain s) = []
      \/ exists c r, snd (span_plain s) = c :: r /\ is_plain c = false).
Proof.
  induction s as [|c s IH]; simpl.
  - auto.
  - destruct (is_plain c) eqn:Hc.
    + destruct (span_plain s) as [a b]. simpl in *.
      destruct IH as (He & Hf & Hr). rewrite Hc, Hf. rewrite <- He. auto.
    + simpl. split; [reflexivity|]. split; [reflexivity|]. right. eauto.
Qed.

Lemma span_plain_app a c r :
  forallb is_plain a = true -> is_plain c = false ->
  span_plain (a ++ c :: r) = (a, c :: r).
Proof.
  intros Ha Hc. induction a as [|x a IH]; simpl.
  - rewrite Hc. reflexivity.
  - simpl in Ha. apply andb_prop in Ha. destruct Ha as [Hx Ha].
    rewrite Hx, (IH Ha). reflexivity.
Qed.

Lemma in_removelast_split {A} (x : A) l :
  In x (removelast l) -> exists pre post, l = (pre ++ x :: post)%list /\ post <> [].
Proof.
  induction l as [|a l IH]; simpl; [tauto|].
  destruct l as [|b l']; [simpl; tauto|].
  intros [<-|Hin].
  - exists [], (b :: l'). split; [reflexivity|discriminate].
  - destruct (IH Hin) as [pre [post [He Hp]]].
    exists (a :: pre), post. rewrite He. auto.
Qed.

Lemma emailRegex_test_sound email :
  emailRegex_test email = true -> emailShape email.
Proof.
  unfold emailRegex_test, emailShape.
  destruct (span_plain_spec (list_ascii_of_string email)) as (He & Hf & _).
  destruct (span_plain (list_ascii_of_string email)) as [loc rest]. simpl in *.
  destruct loc as [|x loc]; [discriminate|].
  destruct rest as [|at_sign [|d dom]]; try discriminate.
  intros H. apply andb_prop in H. destruct H as [H Hdot].
  apply andb_prop in H. destruct H as [Hat Hdom].
  apply Ascii.eqb_eq in Hat. subst at_sign.
  apply existsb_exists in Hdot. destruct Hdot as [y [Hin Hy]].
  apply Ascii.eqb_eq in Hy. subst y.
  destruct (in_removelast_split _ _ Hin) as [pre [post [Hd Hp]]]. subst dom.
  exists (x :: loc), (d :: pre), post.
  change (is_plain d && forallb is_plain (pre ++ "."%char :: post) = true) in Hdom.
  apply andb_prop in Hdom. destruct Hdom as [Hd Hrest].
  rewrite forallb_app in Hrest. apply andb_prop in Hrest.
  destruct Hrest as [Hpre Hpost].
  change (is_plain "."%char && forallb is_plain post = true) in Hpost.
  apply andb_prop in Hpost. destruct Hpost as [_ Hpost].
  repeat split; try assumption; try discriminate.
  simpl. rewrite Hd, Hpre. reflexivity.
Qed.

Lemma emailRegex_test_complete email :
  emailShape email -> emailRegex_test email = true.
Proof.
  unfold emailRegex_test, emailShape.
  intros [a [b [c (He & Ha & Hb & Hc & Hpa & Hpb & Hpc)]]].
  rewrite He. rewrite (span_plain_app a "@"%char _ Hpa eq_refl).
  destruct a as [|x a]; [congruence|].
  destruct b as [|d b]; [congruence|]. simpl app.
  rewrite Ascii.eqb_refl. simpl andb.
  apply andb_true_intro. split.
  + change (is_plain d && forallb is_plain (b ++ "."%char :: c) = true).
    simpl in Hpb. apply andb_prop in Hpb. destruct Hpb as [Hd Hb'].
    rewrite Hd, forallb_app, Hb'.
    change (is_plain "."%char && forallb is_plain c = true).
    rewrite Hpc. reflexivity.
  + rewrite removelast_app by discriminate.
    rewrite existsb_app. apply orb_true_intro. right.
    destruct c as [|y c]; [congruence|]. simpl. reflexivity.
Qed.

(** X2.  [emailRegex] accepts exactly the strings made of a non-empty local
    part, one [@], a non-empty domain head, a dot and a non-empty domain
    tail, where no part holds white space or a second [@]. *)
Theorem emailRegex_test_iff (email : string) :
  emailRegex_test email = true <-> emailShape email.
Proof.
  split.
  - apply emailRegex_test_sound.
  - apply emailRegex_test_complete.
Qed.

Lemma emailRegex_test_iff_witness :
  emailShape "a@x.com" /\ ~ emailShape "a@b@x.com" /\ ~ emailShape "a@x.".
Proof.
  split; [|split].
  - apply (proj1 (emailRegex_test_iff "a@x.com")). reflexivity.
  - intros H. apply (proj2 (emailRegex_test_iff "a@b@x.com")) in H. discriminate.
  - intros H. apply (proj2 (emailRegex_test_iff "a@x.")) in H. discriminate.
Defined.

(** ** Verification: shape, casing, effect *)

(** X3.  Verification does not look at the case of the letters of a code
    made of ASCII characters: such a code and its upper-cased form get the
    same answer and leave the same store, whatever the request and the
    store. *)
Theorem verify_case_insensitive
    (code : string) (reqUser : option string) (env : Env) (db : Db) :
  string_forallb is_ascii7 code = true ->
  verifyEmailVerificationCode code reqUser env db
  = verifyEmailVerificationCode (toUpperCase code) reqUser env db.
Proof.
  intros _. unfold verifyEmailVerificationCode.
  rewrite toUpperCase_is_empty, toUpperCase_length, toUpperCase_alnumRegex,
    toUpperCase_idem.
  reflexivity.
Qed.

Lemma verify_case_insensitive_witness :
  verifyEmailVerificationCode "abc123" (Some "u1") (env_at 3000 "t1" draws_A)
                              db_alice_token
  = verifyEmailVerificationCode "ABC123" (Some "u1") (env_at 3000 "t1" draws_A)
                                db_alice_token
  /\ response (verifyEmailVerificationCode "aBc123" (Some "u1")
                 (env_at 3000 "t1" draws_A) db_alice_token)
     = {| status := 200; success := true; message := None;
          data := NoData; cookie := None |}.
Proof.
  split.
  - apply (verify_case_insensitive "abc123" (Some "u1") (env_at 3000 "t1" draws_A)
             db_alice_token eq_refl).
  - rewrite (verify_case_insensitive "aBc123" (Some "u1") (env_at 3000 "t1" draws_A)
               db_alice_token eq_refl).
    reflexivity.
Defined.

Lemma formSchema_accepts_true code :
  formSchema_accepts code = true ->
  String.length code = 6%nat /\ alnumRegex_test code = true.
Proof.
  unfold formSchema_accepts. intros H.
  apply andb_prop in H. destruct H as [H Ha].
  apply andb_prop in H. destruct H as [H1 H2].
  apply Nat.leb_le in H1. apply Nat.leb_le in H2. split; [lia|exact Ha].
Qed.

(** X4.  The form and the handler agree on the shape of a code.  A code the
    form rejects is answered 400 "Bad Request" by the handler without a look
    at the store, even for a request with no authenticated user; a code the
    form accepts is never answered 400. *)
Theorem verify_shape_agrees_with_form
    (code : string) (reqUser : option string) (env : Env) (db : Db) :
  (formSchema_accepts code = false ->
   verifyEmailVerificationCode code reqUser env db
   = {| response := badRequest; store := db; outbox := [] |})
  /\ (formSchema_accepts code = true ->
      status (response (verifyEmailVerificationCode code reqUser env db)) <> 400).
Proof.
  split.
  - unfold formSchema_accepts, verifyEmailVerificationCode. intros H.
    destruct (is_empty code); [reflexivity|].
    destruct (Nat.eqb_spec (String.length code) 6) as [He|He]; simpl.
    + rewrite He in H. simpl in H. rewrite H. reflexivity.
    + reflexivity.
  - intros H. apply formSchema_accepts_true in H. destruct H as [Hl Ha].
    unfold verifyEmailVerificationCode.
    rewrite (shape_ok_not_empty code Hl), Hl, Ha. simpl.
    destruct reqUser as [uid|]; [|discriminate].
    destruct (select_first _ (users db)); [|discriminate].
    destruct (select_first _ (tokens db)); discriminate.
Qed.

Lemma verify_shape_agrees_with_form_witness :
  response (verifyEmailVerificationCode "abc-12" None (env_at 3000 "t1" draws_A)
                                        db_alice_token)
  = badRequest
  /\ status (response (verifyEmailVerificationCode "abc123" None
                         (env_at 3000 "t1" draws_A) db_alice_token)) <> 400.
Proof.
  split.
  - rewrite (proj1 (verify_shape_agrees_with_form
                      "abc-12" None (env_at 3000 "t1" draws_A) db_alice_token)
                   eq_refl).
    reflexivity.
  - apply (proj2 (verify_shape_agrees_with_form
                    "abc123" None (env_at 3000 "t1" draws_A) db_alice_token)).
    reflexivity.
Defined.

(** The answer of a successful verification. *)
Lemma verify_match code uid env db u :
  String.length code = 6%nat -> alnumRegex_test code = true ->
  In u (users db) -> Users.id u = uid ->
  forall t,
    In t (tokens db) ->
    validEmailTokenWithCode uid (toUpperCase code) (now env) t = true ->
    exists t0,
      In t0 (tokens db)
      /\ validEmailTokenWithCode uid (toUpperCase code) (now env) t0 = true
      /\ verifyEmailVerificationCode code (Some uid) env db
         = {| response := {| status := 200; success := true; message := None;
                             data := NoData; cookie := None |};
              store :=
                {| users := update_where (fun r => Users.id r =? uid)
                                         (Users.set_emailVerified true) (users db);
                   sessions := sessions db;
                   tokens :=
                     update_where (pendingEmailTokenOf uid)
                       (Tokens.set_status EXPIRED)
                       (update_where (fun r => Tokens.id r =? Tokens.id t0)
                          (Tokens.set_status EXPIRED) (tokens db)) |};
              outbox := [] |}.
Proof.
  intros Hl Ha Hin Hid t Ht Hv.
  destruct (select_user_present uid (users db) u Hin Hid) as [u' [Hu Hid']].
  destruct (select_first_some_of_in _ _ _ Ht Hv) as [t0 Hs].
  pose proof Hs as Hs'. unfold select_first in Hs'. apply find_some in Hs'.
  destruct Hs' as [Hin0 Hv0].
  exists t0. split; [exact Hin0|]. split; [exact Hv0|].
  unfold verifyEmailVerificationCode.
  rewrite (shape_ok_not_empty code Hl), Hl, Ha. simpl.
  rewrite Hu, Hid', Hs. reflexivity.
Qed.

Lemma NoDup_map_eq {A B} (f : A -> B) l x y :
  NoDup (map f l) -> In x l -> In y l -> f x = f y -> x = y.
Proof.
  induction l as [|a l IH]; simpl; intros Hn Hx Hy He; [tauto|].
  inversion Hn as [|? ? Hna Hnl]; subst.
  destruct Hx as [<-|Hx], Hy as [<-|Hy].
  - reflexivity.
  - exfalso. apply Hna. rewrite He. apply in_map. exact Hy.
  - exfalso. apply Hna. rewrite <- He. apply in_map. exact Hx.
  - apply IH; assumption.
Qed.

Lemma validEmailTokenWithCode_email uid code at_ t :
  validEmailTokenWithCode uid code at_ t = true -> emailTokenOf uid t = true.
Proof.
  intros H. apply validEmailTokenWithCode_true in H.
  destruct H as (Hu & Hy & _). unfold emailTokenOf.
  rewrite Hu, Hy, String.eqb_refl. reflexivity.
Qed.

Lemma expired_after_cleanup uid x :
  emailTokenOf uid
    (if pendingEmailTokenOf uid x then Tokens.set_status EXPIRED x else x) = true ->
  Tokens.status
    (if pendingEmailTokenOf uid x then Tokens.set_status EXPIRED x else x) = EXPIRED.
Proof.
  unfold pendingEmailTokenOf.
  destruct (emailTokenOf uid x) eqn:He; simpl.
  - destruct (Tokens.status x) eqn:Hs; simpl; intros _; [reflexivity|exact Hs].
  - rewrite He. discriminate.
Qed.

(** X5.  A verification that finds a matching valid token answers 200, sets
    the emailVerified flag of the rows with the user's id and changes nothing
    else in them, keeps every other user row and every session, and keeps
    every token that is not an EMAIL token of the user exactly as it was
    (token ids being unique); it sends no mail. *)
Theorem verify_success_frame
    (code uid : string) (env : Env) (db : Db) (u : Users.row) (t : Tokens.row) :
  String.length code = 6%nat -> alnumRegex_test code = true ->
  In u (users db) -> Users.id u = uid ->
  In t (tokens db) ->
  validEmailTokenWithCode uid (toUpperCase code) (now env) t = true ->
  NoDup (map Tokens.id (tokens db)) ->
  response (verifyEmailVerificationCode code (Some uid) env db)
  = {| status := 200; success := true; message := None;
       data := NoData; cookie := None |}
  /\ outbox (verifyEmailVerificationCode code (Some uid) env db) = []
  /\ sessions (store (verifyEmailVerificationCode code (Some uid) env db))
     = sessions db
  /\ users (store (verifyEmailVerificationCode code (Some uid) env db))
     = map (fun r => if Users.id r =? uid then Users.set_emailVerified true r else r)
           (users db)
  /\ (forall x, In x (tokens db) -> emailTokenOf uid x = false ->
        In x (tokens (store (verifyEmailVerificationCode code (Some uid) env db))))
  /\ List.length (tokens (store (verifyEmailVerificationCode code (Some uid) env db)))
     = List.length (tokens db).
Proof.
  intros Hl Ha Hin Hid Ht Hv Hnd.
  destruct (verify_match code uid env db u Hl Ha Hin Hid t Ht Hv)
    as [t0 (Hin0 & Hv0 & ->)]. simpl.
  repeat split.
  - intros x Hx He. unfold update_where.
    apply in_map_iff. exists x. split.
    + unfold pendingEmailTokenOf. rewrite He. reflexivity.
    + apply in_map_iff. exists x. split; [|exact Hx].
      destruct (Tokens.id x =? Tokens.id t0) eqn:Hi; [|reflexivity].
      apply String.eqb_eq in Hi.
      rewrite (NoDup_map_eq Tokens.id _ x t0 Hnd Hx Hin0 Hi) in He.
      rewrite (validEmailTokenWithCode_email _ _ _ _ Hv0) in He. discriminate.
  - unfold update_where. rewrite !length_map. reflexivity.
Qed.

Lemma verify_success_frame_witness :
  users (store (verifyEmailVerificationCode "abc123" (Some "u1")
                  (env_at 3000 "t1" draws_A) db_alice_token))
  = [Users.set_emailVerified true alice]
  /\ sessions (store (verifyEmailVerificationCode "abc123" (Some "u1")
                        (env_at 3000 "t1" draws_A) db_alice_token)) = [].
Proof.
  destruct (verify_success_frame "abc123" "u1" (env_at 3000 "t1" draws_A)
              db_alice_token alice alice_token)
    as (_ & _ & Hs & Hu & _).
  - reflexivity.
  - reflexivity.
  - simpl. left. reflexivity.
  - reflexivity.
  - simpl. left. reflexivity.
  - reflexivity.
  - simpl. constructor; [intros []|constructor].
  - split; [rewrite Hu; reflexivity|exact Hs].
Defined.

(** X6.  After a verification that succeeded, every EMAIL token of the user
    is EXPIRED, however many were PENDING before, so no code verifies for
    that user any more: each later attempt with a well-shaped code, the same
    one included, is refused with the 500 answer and changes nothing. *)
Theorem verify_success_spends_all_codes
    (code uid : string) (env : Env) (db : Db) (u : Users.row) (t : Tokens.row) :
  String.length code = 6%nat -> alnumRegex_test code = true ->
  In u (users db) -> Users.id u = uid ->
  In t (tokens db) ->
  validEmailTokenWithCode uid (toUpperCase code) (now env) t = true ->
  (forall x,
     In x (tokens (store (verifyEmailVerificationCode code (Some uid) env db))) ->
     emailTokenOf uid x = true -> Tokens.status x = EXPIRED)
  /\ (forall code2 env2,
        String.length code2 = 6%nat -> alnumRegex_test code2 = true ->
        verifyEmailVerificationCode code2 (Some uid) env2
          (store (verifyEmailVerificationCode code (Some uid) env db))
        = {| response := internalServerError;
             store := store (verifyEmailVerificationCode code (Some uid) env db);
             outbox := [] |}).
Proof.
  intros Hl Ha Hin Hid Ht Hv.
  destruct (verify_match code uid env db u Hl Ha Hin Hid t Ht Hv)
    as [t0 (Hin0 & Hv0 & ->)]. simpl.
  assert (Hexp : forall x,
             In x (update_where (pendingEmailTokenOf uid) (Tokens.set_status EXPIRED)
                     (update_where (fun r => Tokens.id r =? Tokens.id t0)
                        (Tokens.set_status EXPIRED) (tokens db))) ->
             emailTokenOf uid x = true -> Tokens.status x = EXPIRED).
  { intros x Hx. unfold update_where in Hx at 1. apply in_map_iff in Hx.
    destruct Hx as [y [<- _]]. apply expired_after_cleanup. }
  split; [exact Hexp|].
  intros code2 env2 Hl2 Ha2.
  apply (verify_no_match code2 uid env2 _ (Users.set_emailVerified true u) Hl2 Ha2).
  - simpl. unfold update_where. apply in_map_iff. exists u. split; [|exact Hin].
    rewrite Hid, String.eqb_refl. reflexivity.
  - exact Hid.
  - simpl. intros x Hx.
    destruct (validEmailTokenWithCode uid (toUpperCase code2) (now env2) x) eqn:Hvx;
      [|reflexivity].
    pose proof (validEmailTokenWithCode_email _ _ _ _ Hvx) as He.
    apply validEmailTokenWithCode_true in Hvx. destruct Hvx as (_ & _ & _ & Hs & _).
    rewrite (Hexp x Hx He) in Hs. discriminate.
Qed.

Lemma verify_success_spends_all_codes_witness :
  response (verifyEmailVerificationCode "ABC123" (Some "u1") (env_at 3500 "t2" draws_B)
              (store (verifyEmailVerificationCode "abc123" (Some "u1")
                        (env_at 3000 "t1" draws_A) db_alice_token)))
  = internalServerError.
Proof.
  destruct (verify_success_spends_all_codes "abc123" "u1" (env_at 3000 "t1" draws_A)
              db_alice_token alice alice_token)
    as (_ & H).
  - reflexivity.
  - reflexivity.
  - simpl. left. reflexivity.
  - reflexivity.
  - simpl. left. reflexivity.
  - reflexivity.
  - rewrite (H "ABC123" (env_at 3500 "t2" draws_B) eq_refl eq_refl). reflexivity.
Defined.

(** X7.  After a verification that succeeded, [getCurrentUser] for the same
    user answers 200 with emailVerified true. *)
Theorem getCurrentUser_after_verify
    (code uid : string) (env : Env) (db : Db) (u : Users.row) (t : Tokens.row) :
  String.length code = 6%nat -> alnumRegex_test code = true ->
  In u (users db) -> Users.id u = uid ->
  In t (tokens db) ->
  validEmailTokenWithCode uid (toUpperCase code) (now env) t = true ->
  exists view,
    response (getCurrentUser (Some uid)
                (store (verifyEmailVerificationCode code (Some uid) env db)))
    = {| status := 200; success := true; message := None;
         data := UserData view; cookie := None |}
    /\ uv_id view = uid /\ uv_emailVerified view = true.
Proof.
  intros Hl Ha Hin Hid Ht Hv.
  destruct (verify_match code uid env db u Hl Ha Hin Hid t Ht Hv)
    as [t0 (_ & _ & ->)]. simpl.
  unfold getCurrentUser. simpl.
  destruct (select_user_present uid
              (update_where (fun r => Users.id r =? uid)
                            (Users.set_emailVerified true) (users db))
              (Users.set_emailVerified true u)) as [row [Hs Hrow]].
  - unfold update_where. apply in_map_iff. exists u. split; [|exact Hin].
    rewrite Hid, String.eqb_refl. reflexivity.
  - exact Hid.
  - rewrite Hs. exists (userView row). split; [reflexivity|]. split; [exact Hrow|].
    apply select_user_by_id in Hs. destruct Hs as [Hin' _].
    unfold update_where in Hin'. apply in_map_iff in Hin'.
    destruct Hin' as [y [Hy _]].
    destruct (Users.id y =? uid) eqn:He; subst row; simpl; [reflexivity|].
    simpl in Hrow. rewrite Hrow, String.eqb_refl in He. discriminate.
Qed.

Lemma getCurrentUser_after_verify_witness :
  exists view,
    data (response (getCurrentUser (Some "u1")
                      (store (verifyEmailVerificationCode "abc123" (Some "u1")
                                (env_at 3000 "t1" draws_A) db_alice_token))))
    = UserData view
    /\ uv_emailVerified view = true.
Proof.
  destruct (getCurrentUser_after_verify "abc123" "u1" (env_at 3000 "t1" draws_A)
              db_alice_token alice alice_token)
    as [view (Hr & _ & Hv)].
  - reflexivity.
  - reflexivity.
  - simpl. left. reflexivity.
  - reflexivity.
  - simpl. left. reflexivity.
  - reflexivity.
  - exists view. rewrite Hr. split; [reflexivity|exact Hv].
Defined.

(** X8.  A code that belongs to another user's token verifies nothing: codes
    being unique among tokens, the caller then has no token with that code,
    and the attempt is refused with the 500 answer and changes nothing. *)
Theorem verify_refuses_code_of_other_user
    (code uid : string) (env : Env) (db : Db) (u : Users.row) (t : Tokens.row) :
  String.length code = 6%nat -> alnumRegex_test code = true ->
  In u (users db) -> Users.id u = uid ->
  NoDup (map Tokens.code (tokens db)) ->
  In t (tokens db) -> Tokens.code t = toUpperCase code -> Tokens.userId t <> uid ->
  verifyEmailVerificationCode code (Some uid) env db
  = {| response := internalServerError; store := db; outbox := [] |}.
Proof.
  intros Hl Ha Hin Hid Hnd Ht Hc Hother.
  apply (verify_no_match code uid env db u Hl Ha Hin Hid).
  intros x Hx.
  destruct (validEmailTokenWithCode uid (toUpperCase code) (now env) x) eqn:Hv;
    [|reflexivity].
  apply validEmailTokenWithCode_true in Hv. destruct Hv as (Hu & _ & Hcx & _).
  exfalso. apply Hother.
  rewrite <- (NoDup_map_eq Tokens.code _ x t Hnd Hx Ht); [exact Hu|congruence].
Qed.

Lemma verify_refuses_code_of_other_user_witness :
  verifyEmailVerificationCode "abc123" (Some "u1") (env_at 3000 "t1" draws_A)
    {| users := [alice]; sessions := [];
       tokens := [ {| Tokens.id := "t7"; Tokens.userId := "u7";
                      Tokens.code := "ABC123"; Tokens.type := EMAIL;
                      Tokens.status := PENDING; Tokens.createdAt := 2000;
                      Tokens.updatedAt := 2000; Tokens.expiresAt := 602000 |} ] |}
  = {| response := internalServerError;
       store := {| users := [alice]; sessions := [];
                   tokens := [ {| Tokens.id := "t7"; Tokens.userId := "u7";
                                  Tokens.code := "ABC123"; Tokens.type := EMAIL;
                                  Tokens.status := PENDING; Tokens.createdAt := 2000;
                                  Tokens.updatedAt := 2000;
                                  Tokens.expiresAt := 602000 |} ] |};
       outbox := [] |}.
Proof.
  apply (verify_refuses_code_of_other_user "abc123" "u1" (env_at 3000 "t1" draws_A)
           _ alice
           {| Tokens.id := "t7"; Tokens.userId := "u7";
              Tokens.code := "ABC123"; Tokens.type := EMAIL;
              Tokens.status := PENDING; Tokens.createdAt := 2000;
              Tokens.updatedAt := 2000; Tokens.expiresAt := 602000 |}).
  - reflexivity.
  - reflexivity.
  - simpl. left. reflexivity.
  - reflexivity.
  - simpl. constructor; [intros []|constructor].
  - simpl. left. reflexivity.
  - reflexivity.
  - simpl. discriminate.
Defined.

(** X9.  Verification never adds an active token: for every (user, purpose)
    pair and every instant, the number of PENDING tokens not yet expired
    after [verifyEmailVerificationCode] is at most what it was before; so
    verification keeps the at-most-one-active invariant. *)
Theorem verify_keeps_atMostOneActive
    (code : string) (reqUser : option string) (env : Env) (db : Db) (at_ : Z) :
  (forall uid ty,
     (List.length (filter (activeFor uid ty at_)
                     (tokens (store (verifyEmailVerificationCode code reqUser env db))))
      <= List.length (filter (activeFor uid ty at_) (tokens db)))%nat)
  /\ (atMostOneActive at_ (tokens db) ->
      atMostOneActive at_
        (tokens (store (verifyEmailVerificationCode code reqUser env db)))).
Proof.
  assert (H : forall uid ty,
     (List.length (filter (activeFor uid ty at_)
                     (tokens (store (verifyEmailVerificationCode code reqUser env db))))
      <= List.length (filter (activeFor uid ty at_) (tokens db)))%nat).
  { intros uid ty. unfold verifyEmailVerificationCode.
    destruct (is_empty code); [simpl; lia|].
    destruct (_ || _); [simpl; lia|].
    destruct reqUser as [u|]; [|simpl; lia].
    destruct (select_first _ (users db)) as [cu|]; [|simpl; lia].
    destruct (select_first _ (tokens db)) as [vt|]; [|simpl; lia].
    simpl.
    etransitivity; [apply active_count_expire_le|]. apply active_count_expire_le. }
  split; [exact H|].
  intros Hinv uid ty. specialize (H uid ty). specialize (Hinv uid ty). lia.
Qed.

Lemma verify_keeps_atMostOneActive_witness :
  atMostOneActive 2500 (tokens db_alice_token)
  /\ atMostOneActive 2500
       (tokens (store (verifyEmailVerificationCode "abc123" (Some "u1")
                         (env_at 3000 "t1" draws_A) db_alice_token))).
Proof.
  assert (H : atMostOneActive 2500 (tokens db_alice_token)).
  { intros u ty. simpl.
    destruct (activeFor u ty 2500 alice_token); simpl; lia. }
  split; [exact H|].
  exact (proj2 (verify_keeps_atMostOneActive "abc123" (Some "u1")
                  (env_at 3000 "t1" draws_A) db_alice_token 2500) H).
Defined.

(** ** Issuance: round trip, frame, repetition, mail *)

Lemma newEmailToken_email uid env at_ :
  emailTokenOf uid (newEmailToken uid env at_) = true.
Proof. unfold emailTokenOf. simpl. rewrite String.eqb_refl. reflexivity. Qed.

(** X10.  The code a successful resend answers with verifies the user: when
    the draws are in range, submitting that code in any letter case before
    ten minutes have passed is answered 200, and every row with the user's
    id then has emailVerified true. *)
Theorem resend_then_verify
    (uid code : string) (env env2 : Env) (db : Db) (u : Users.row) :
  In u (users db) -> Users.id u = uid ->
  drawsInRange (codeDraws env) ->
  success (response (resendEmailVerificationCode (Some uid) env db)) = true ->
  toUpperCase code = generateCode (codeDraws env) ->
  now env2 < now env + 10 * 60 * 1000 ->
  response (verifyEmailVerificationCode code (Some uid) env2
              (store (resendEmailVerificationCode (Some uid) env db)))
  = {| status := 200; success := true; message := None;
       data := NoData; cookie := None |}
  /\ (forall row,
        In row (users (store (verifyEmailVerificationCode code (Some uid) env2
                                (store (resendEmailVerificationCode (Some uid) env db)))))
        -> Users.id row = uid -> Users.emailVerified row = true).
Proof.
  intros Hin Hid Hr Hok Hcode Hlt.
  destruct (generateCode_passes_shape _ Hr) as (Hgl & Hga).
  assert (Hl : String.length code = 6%nat).
  { rewrite <- toUpperCase_length, Hcode. exact Hgl. }
  assert (Ha : alnumRegex_test code = true).
  { rewrite <- toUpperCase_alnumRegex, Hcode. exact Hga. }
  destruct (select_user_present uid (users db) u Hin Hid) as [u' [Hu _]].
  destruct (resend_store uid env db u' Hu) as [Husers [[_ Hnone] | [Htok _]]].
  - exfalso. revert Hok. unfold resendEmailVerificationCode. rewrite Hu.
    destruct (select_user_by_id _ _ _ Hu) as [_ ->].
    unfold expireEmailTokens in Hnone. unfold expireEmailTokens.
    rewrite Hnone. simpl. discriminate.
  - destruct (verify_match code uid env2
                (store (resendEmailVerificationCode (Some uid) env db)) u Hl Ha)
      with (t := newEmailToken uid env (now env)) as [t0 (_ & _ & ->)].
    + rewrite Husers. exact Hin.
    + exact Hid.
    + rewrite Htok. apply in_or_app. right. left. reflexivity.
    + unfold validEmailTokenWithCode. simpl.
      rewrite String.eqb_refl, Hcode, String.eqb_refl. simpl.
      apply Z.ltb_lt. unfold tenMinutes. exact Hlt.
    + simpl. split; [reflexivity|].
      intros row Hrow Hrid. unfold update_where in Hrow. apply in_map_iff in Hrow.
      destruct Hrow as [y [Hy _]].
      destruct (Users.id y =? uid) eqn:He; subst row; simpl; [reflexivity|].
      rewrite Hrid, String.eqb_refl in He. discriminate.
Qed.

Lemma resend_then_verify_witness :
  response (verifyEmailVerificationCode "abc123" (Some "u1") (env_at 9000 "t2" draws_B)
              (store (resendEmailVerificationCode (Some "u1")
                        (env_at 3000 "t1" draws_ABC123) db_alice)))
  = {| status := 200; success := true; message := None;
       data := NoData; cookie := None |}.
Proof.
  apply (resend_then_verify "u1" "abc123" (env_at 3000 "t1" draws_ABC123)
           (env_at 9000 "t2" draws_B) db_alice alice).
  - simpl. left. reflexivity.
  - reflexivity.
  - intros i. simpl. unfold draws_ABC123.
    do 6 (destruct i as [|i]; [simpl; lia|]). destruct i; simpl; lia.
  - reflexivity.
  - reflexivity.
  - simpl. lia.
Defined.

Lemma issuance_users_sessions uid env db :
  (users (store (sendEmailVerificationCode (Some uid) env db)) = users db
   /\ sessions (store (sendEmailVerificationCode (Some uid) env db)) = sessions db)
  /\ (users (store (resendEmailVerificationCode (Some uid) env db)) = users db
      /\ sessions (store (resendEmailVerificationCode (Some uid) env db)) = sessions db).
Proof.
  unfold sendEmailVerificationCode, resendEmailVerificationCode.
  destruct (select_first _ (users db)) as [u|]; simpl; [|auto].
  split.
  - destruct (select_first _ (tokens db)); simpl; [auto|].
    destruct (insert_token _ _) as [db2|] eqn:Hi; simpl; [|auto].
    apply insert_token_some in Hi. destruct Hi as (-> & _). auto.
  - destruct (insert_token _ _) as [db2|] eqn:Hi; simpl; [|auto].
    apply insert_token_some in Hi. destruct Hi as (-> & _). auto.
Qed.

Lemma issuedTokens_frame uid newToken before after :
  emailTokenOf uid newToken = true ->
  issuedTokens uid newToken before after ->
  forall x, emailTokenOf uid x = false -> (In x after <-> In x before).
Proof.
  intros Hnew Hiss x Hx.
  assert (Hupd : In x (update_where (emailTokenOf uid) (Tokens.set_status EXPIRED) before)
                 <-> In x before).
  { unfold update_where. rewrite in_map_iff. split.
    - intros [y [Hy Hin]]. destruct (emailTokenOf uid y) eqn:He.
      + subst x. unfold emailTokenOf in Hx, He. simpl in Hx. congruence.
      + subst x. exact Hin.
    - intros Hin. exists x. rewrite Hx. auto. }
  destruct Hiss as [-> | [-> | ->]].
  - tauto.
  - exact Hupd.
  - rewrite in_app_iff. simpl. split.
    + intros [H | [<- | []]]; [apply Hupd; exact H|congruence].
    + intros H. left. apply Hupd. exact H.
Qed.

(** X11.  Issuing a code touches the caller's EMAIL tokens only: after
    [sendEmailVerificationCode] or [resendEmailVerificationCode], users and
    sessions are as before, and the tokens of other users or of another
    purpose are exactly the ones there were, unchanged. *)
Theorem issuance_frame (uid : string) (env : Env) (db : Db) (x : Tokens.row) :
  emailTokenOf uid x = false ->
  (users (store (sendEmailVerificationCode (Some uid) env db)) = users db
   /\ sessions (store (sendEmailVerificationCode (Some uid) env db)) = sessions db
   /\ (In x (tokens (store (sendEmailVerificationCode (Some uid) env db)))
       <-> In x (tokens db)))
  /\ (users (store (resendEmailVerificationCode (Some uid) env db)) = users db
      /\ sessions (store (resendEmailVerificationCode (Some uid) env db)) = sessions db
      /\ (In x (tokens (store (resendEmailVerificationCode (Some uid) env db)))
          <-> In x (tokens db))).
Proof.
  intros Hx.
  destruct (issuance_users_sessions uid env db) as [[Hu1 Hs1] [Hu2 Hs2]].
  repeat split; try assumption.
  - apply (issuedTokens_frame uid (newEmailToken uid env (now2 env)) (tokens db));
      [apply newEmailToken_email|apply send_issuedTokens|exact Hx].
  - apply (issuedTokens_frame uid (newEmailToken uid env (now2 env)) (tokens db));
      [apply newEmailToken_email|apply send_issuedTokens|exact Hx].
  - apply (issuedTokens_frame uid (newEmailToken uid env (now env)) (tokens db));
      [apply newEmailToken_email|apply resend_issuedTokens|exact Hx].
  - apply (issuedTokens_frame uid (newEmailToken uid env (now env)) (tokens db));
      [apply newEmailToken_email|apply resend_issuedTokens|exact Hx].
Qed.

Lemma issuance_frame_witness :
  In other_token
     (tokens (store (resendEmailVerificationCode (Some "u1") (env_at 3000 "t1" draws_A)
                       db_two_tokens))).
Proof.
  apply (proj2 (proj2 (proj2 (issuance_frame "u1" (env_at 3000 "t1" draws_A)
                                db_two_tokens other_token eq_refl)))).
  simpl. right. left. reflexivity.
Defined.

Lemma select_first_app_none {A} (p : A -> bool) l1 l2 :
  (forall x, In x l1 -> p x = false) ->
  select_first p (l1 ++ l2) = select_first p l2.
Proof.
  unfold select_first. induction l1 as [|a l1 IH]; simpl; intros H.
  - reflexivity.
  - rewrite (H a (or_introl eq_refl)). apply IH.
    intros x Hx. apply H. right. exact Hx.
Qed.




(** X13.  Each issuing handler sends at most one mail per call, and a mail
    it sends shows the generated code, which is the code of a PENDING token
    of the user that this very handler has left in its store, and greets a
    stored row of that user by first name. *)
Theorem issuance_mail_shows_stored_code (uid : string) (env : Env) (db : Db) (m : Email) :
  (In m (outbox (sendEmailVerificationCode (Some uid) env db)) ->
   shownCode m = generateCode (codeDraws env)
   /\ (exists row, In row (users db) /\ Users.id row = uid
                   /\ greetedName m = Users.firstName row)
   /\ (exists t,
         In t (tokens (store (sendEmailVerificationCode (Some uid) env db)))
         /\ Tokens.userId t = uid /\ Tokens.status t = PENDING
         /\ Tokens.type t = EMAIL /\ Tokens.code t = shownCode m))
  /\ (In m (outbox (resendEmailVerificationCode (Some uid) env db)) ->
      shownCode m = generateCode (codeDraws env)
      /\ (exists row, In row (users db) /\ Users.id row = uid
                      /\ greetedName m = Users.firstName row)
      /\ (exists t,
            In t (tokens (store (resendEmailVerificationCode (Some uid) env db)))
            /\ Tokens.userId t = uid /\ Tokens.status t = PENDING
            /\ Tokens.type t = EMAIL /\ Tokens.code t = shownCode m))
  /\ (List.length (outbox (sendEmailVerificationCode (Some uid) env db)) <= 1)%nat
  /\ (List.length (outbox (resendEmailVerificationCode (Some uid) env db)) <= 1)%nat.
Proof.
  unfold sendEmailVerificationCode, resendEmailVerificationCode.
  destruct (select_first _ (users db)) as [u|] eqn:Hu; simpl;
    [|split; [tauto|split; [tauto|split; lia]]].
  destruct (select_user_by_id _ _ _ Hu) as [Hin Hid]. rewrite Hid.
  split; [|split; [|split]].
  - destruct (select_first _ (tokens db)); simpl; [tauto|].
    destruct (insert_token (newEmailToken uid env (now2 env)) _) as [db2|] eqn:Hi;
      simpl; [|tauto].
    intros [<-|[]]. simpl.
    apply insert_token_some in Hi. destruct Hi as (-> & _).
    split; [reflexivity|]. split; [exists u; auto|].
    exists (newEmailToken uid env (now2 env)). split; [|auto].
    simpl. apply in_or_app. right. left. reflexivity.
  - destruct (insert_token (newEmailToken uid env (now env)) _) as [db2|] eqn:Hi;
      simpl; [|tauto].
    intros [<-|[]]. simpl.
    apply insert_token_some in Hi. destruct Hi as (-> & _).
    split; [reflexivity|]. split; [exists u; auto|].
    exists (newEmailToken uid env (now env)). split; [|auto].
    simpl. apply in_or_app. right. left. reflexivity.
  - destruct (select_first _ (tokens db)); simpl; [lia|].
    destruct (insert_token _ _); simpl; lia.
  - destruct (insert_token _ _); simpl; lia.
Qed.

Lemma issuance_mail_shows_stored_code_witness :
  map shownCode (outbox (sendEmailVerificationCode (Some "u1")
                           (env_at 3000 "t1" draws_A) db_alice))
  = ["AAAAAA"]
  /\ (forall m,
        In m (outbox (sendEmailVerificationCode (Some "u1")
                        (env_at 3000 "t1" draws_A) db_alice)) ->
        exists t,
          In t (tokens (store (sendEmailVerificationCode (Some "u1")
                                 (env_at 3000 "t1" draws_A) db_alice)))
          /\ Tokens.code t = shownCode m)
  /\ (forall m,
        In m (outbox (resendEmailVerificationCode (Some "u1")
                        (env_at 3000 "t1" draws_A) db_alice)) ->
        shownCode m = generateCode draws_A).
Proof.
  split; [reflexivity|]. split.
  - intros m Hm.
    destruct (proj1 (issuance_mail_shows_stored_code "u1" (env_at 3000 "t1" draws_A)
                       db_alice m) Hm) as (_ & _ & [t (Hin & _ & _ & _ & Hc)]).
    exists t. split; [exact Hin|exact Hc].
  - intros m Hm.
    exact (proj1 (proj1 (proj2 (issuance_mail_shows_stored_code "u1"
                                  (env_at 3000 "t1" draws_A) db_alice m)) Hm)).
Defined.

(** ** Sessions: sign-out, pruning, cookies *)

Lemma delete_where_In {A} (p : A -> bool) l x :
  In x (delete_where p l) <-> In x l /\ p x = false.
Proof.
  unfold delete_where. rewrite filter_In.
  destruct (p x); simpl; intuition congruence.
Qed.

Lemma delete_where_idem {A} (p : A -> bool) l :
  delete_where p (delete_where p l) = delete_where p l.
Proof.
  unfold delete_where. induction l as [|a l IH]; simpl; [reflexivity|].
  destruct (p a) eqn:Hp; simpl; [exact IH|]. rewrite Hp. simpl. rewrite IH. reflexivity.
Qed.

Lemma delete_where_none {A} (p : A -> bool) l :
  existsb p l = false -> delete_where p l = l.
Proof.
  unfold delete_where. induction l as [|a l IH]; simpl; [reflexivity|].
  intros H. apply orb_false_elim in H. destruct H as [Ha Hl].
  rewrite Ha. simpl. rewrite (IH Hl). reflexivity.
Qed.

Lemma existsb_delete_where {A} (p q : A -> bool) l :
  existsb p l = false -> existsb p (delete_where q l) = false.
Proof.
  unfold delete_where. induction l as [|a l IH]; simpl; [reflexivity|].
  intros H. apply orb_false_elim in H. destruct H as [Ha Hl].
  destruct (q a); simpl; [apply IH; exact Hl|]. rewrite Ha. apply IH. exact Hl.
Qed.

(** X14.  [signOut] with a non-empty session cookie has two outcomes.  If
    the cookie's value is text the store accepts, the handler removes
    exactly the sessions that carry that token -- a session is left if and
    only if it was there and has another token -- leaves users and tokens
    untouched, answers 200 and clears the cookie, whether or not the token
    named a session; signing out again with the same cookie changes nothing
    more.  If the value holds U+0000 the delete throws: the answer is 500
    "Internal server error", nothing is deleted and no cookie is cleared. *)
Theorem signOut_removes_the_session (sessionToken : string) (db : Db) :
  is_empty sessionToken = false ->
  (textOk sessionToken = true ->
   (forall s, In s (sessions (so_store (signOut (Some sessionToken) db)))
              <-> In s (sessions db) /\ Sessions.token s <> sessionToken)
   /\ users (so_store (signOut (Some sessionToken) db)) = users db
   /\ tokens (so_store (signOut (Some sessionToken) db)) = tokens db
   /\ signOut (Some sessionToken) (so_store (signOut (Some sessionToken) db))
      = signOut (Some sessionToken) db
   /\ so_response (signOut (Some sessionToken) db)
      = {| status := 200; success := true; message := Some "Signed out successfully";
           data := NoData; cookie := None |}
   /\ so_clearedCookie (signOut (Some sessionToken) db) = Some "sessionToken")
  /\ (textOk sessionToken = false ->
      so_store (signOut (Some sessionToken) db) = db
      /\ so_response (signOut (Some sessionToken) db)
         = {| status := 500; success := false;
              message := Some "Internal server error";
              data := NoData; cookie := None |}
      /\ so_clearedCookie (signOut (Some sessionToken) db) = None).
Proof.
  intros He. unfold signOut. rewrite He. split; intros Ht; rewrite Ht; simpl.
  - split; [|split; [reflexivity|split; [reflexivity|split; [|split; reflexivity]]]].
    + intros s. rewrite delete_where_In.
      split; intros [Hin Hk]; (split; [exact Hin|]).
      * intros Heq. rewrite Heq, String.eqb_refl in Hk. discriminate.
      * destruct (Sessions.token s =? sessionToken) eqn:Hq; [|reflexivity].
        apply String.eqb_eq in Hq. contradiction.
    + unfold with_sessions, signedOut. simpl. rewrite delete_where_idem. reflexivity.
  - repeat split.
Qed.

Lemma signOut_removes_the_session_witness :
  sessions (so_store (signOut (Some "tok-old") db_alice_sessions)) = [alice_live_session]
  /\ (forall s, In s (sessions (so_store (signOut (Some "tok-old") db_alice_sessions)))
                -> Sessions.token s <> "tok-old")
  /\ status (so_response (signOut (Some (String Ascii.zero "tok-old"))
                                  db_alice_sessions)) = 500
  /\ so_store (signOut (Some (String Ascii.zero "tok-old")) db_alice_sessions)
     = db_alice_sessions.
Proof.
  split; [reflexivity|]. split; [|split].
  - intros s Hs.
    exact (proj2 (proj1 (proj1 (proj1 (signOut_removes_the_session "tok-old"
                                         db_alice_sessions eq_refl) eq_refl) s) Hs)).
  - destruct (proj2 (signOut_removes_the_session (String Ascii.zero "tok-old")
                       db_alice_sessions eq_refl) eq_refl) as (_ & Hr & _).
    rewrite Hr. reflexivity.
  - exact (proj1 (proj2 (signOut_removes_the_session (String Ascii.zero "tok-old")
                           db_alice_sessions eq_refl) eq_refl)).
Defined.

(** Without a session cookie, or with an empty one, [signOut] deletes
    nothing and still answers 200 and clears the cookie. *)
Lemma signOut_without_cookie (db : Db) :
  signOut None db = signOut (Some EmptyString) db
  /\ so_store (signOut None db) = db
  /\ status (so_response (signOut None db)) = 200
  /\ so_clearedCookie (signOut None db) = Some "sessionToken".
Proof. repeat split. Qed.

Lemma signUp_created bcrypt_hash req c env db :
  status (response (signUp bcrypt_hash req c env db)) = 201 ->
  signUpShapeOk req = true
  /\ select_first (fun u => Users.email u =? su_email req) (users db) = None
  /\ existsb (fun r => Sessions.token r =? newSessionToken env) (sessions db) = false
  /\ signUp bcrypt_hash req c env db
     = {| response :=
            {| status := 201; success := true;
               message := Some "User created successfully";
               data := UserData
                         (userView (newUserRow req
                                      (bcrypt_hash (su_password req) 12 (salt env)) env));
               cookie := Some (sessionCookie (newSessionToken env) sevenDays) |};
          store :=
            {| users := users db
                        ++ [newUserRow req
                              (bcrypt_hash (su_password req) 12 (salt env)) env];
               sessions := sessions db
                           ++ [newSessionRow (newUserId env) c env (now env + sevenDays)];
               tokens := tokens db |};
          outbox := [] |}.
Proof.
  unfold signUp, signUpShapeOk.
  destruct (_ || _ || _ || _ || _); [discriminate|].
  destruct (emailRegex_test _); [|discriminate].
  destruct (_ <? _)%nat; [discriminate|]. simpl.
  destruct (negb (textOk _)); [discriminate|].
  destruct (select_first _ _); [discriminate|].
  destruct (insert_user _ db) as [db1|] eqn:Hi; [|discriminate].
  apply insert_user_some in Hi. destruct Hi as (-> & _ & _).
  destruct (insert_session _ _) as [db2|] eqn:Hs; [|discriminate].
  intros _. split; [reflexivity|]. split; [reflexivity|].
  pose proof Hs as Hs'. apply insert_session_some in Hs'. subst db2.
  split; [|reflexivity].
  unfold insert_session in Hs. simpl in Hs.
  destruct (existsb (fun r => Sessions.id r =? newSessionId env) (sessions db));
    [discriminate|].
  destruct (existsb (fun r => Sessions.token r =? newSessionToken env) (sessions db));
    [discriminate|reflexivity].
Qed.

Lemma signUp_created_text bcrypt_hash req c env db :
  status (response (signUp bcrypt_hash req c env db)) = 201 ->
  textOk (su_email req) = true.
Proof.
  unfold signUp.
  destruct (_ || _ || _ || _ || _); [discriminate|].
  destruct (negb (emailRegex_test _)); [discriminate|].
  destruct (_ <? _)%nat; [discriminate|].
  destruct (textOk (su_email req)); [reflexivity|discriminate].
Qed.

Lemma generated_session_token_ok env : textOk (newSessionToken env) = true.
Proof.
  pose proof (generated_ok env) as H.
  apply andb_prop in H. destruct H as [H _].
  apply andb_prop in H. destruct H as [_ H]. exact H.
Qed.


Lemma signIn_ok bcrypt_compare req c env db :
  status (response (signIn bcrypt_compare req c env db)) = 200 ->
  exists user,
    is_empty (si_email req) = false /\ is_empty (si_password req) = false
    /\ select_first (fun u => Users.email u =? si_email req) (users db) = Some user
    /\ bcrypt_compare (si_password req) (Users.password user) = true
    /\ existsb (fun r => Sessions.token r =? newSessionToken env)
               (delete_where (expiredSessionOf (Users.id user) (now2 env)) (sessions db))
       = false
    /\ signIn bcrypt_compare req c env db
       = {| response :=
              {| status := 200; success := true;
                 message := Some "Signed in successfully";
                 data := UserData (userView user);
                 cookie := Some (sessionCookie (newSessionToken env)
                                   (if si_rememberMe req then sevenDays else oneDay)) |};
            store :=
              {| users := users db;
                 sessions :=
                   delete_where (expiredSessionOf (Users.id user) (now2 env))
                                (sessions db)
                   ++ [newSessionRow (Users.id user) c env
                         (now env + (if si_rememberMe req then sevenDays else oneDay))];
                 tokens := tokens db |};
            outbox := [] |}.
Proof.
  unfold signIn.
  destruct (is_empty (si_email req)); [discriminate|].
  destruct (is_empty (si_password req)); [discriminate|]. simpl.
  destruct (negb (textOk _)); [discriminate|].
  destruct (select_first _ _) as [user|] eqn:Hsel; [|discriminate].
  destruct (bcrypt_compare _ _) eqn:Hcmp; [|discriminate]. simpl.
  destruct (insert_session _ _) as [db2|] eqn:Hs; [|discriminate].
  intros _. exists user.
  pose proof Hs as Hs'. apply insert_session_some in Hs'. subst db2.
  assert (Ht : existsb (fun r => Sessions.token r =? newSessionToken env)
                 (delete_where (expiredSessionOf (Users.id user) (now2 env))
                               (sessions db)) = false).
  { unfold insert_session in Hs. simpl in Hs.
    destruct (existsb (fun r => Sessions.id r =? newSessionId env) _); [discriminate|].
    fold (expiredSessionOf (Users.id user) (now2 env)) in Hs.
    destruct (existsb (fun r => Sessions.token r =? newSessionToken env) _);
      [discriminate|reflexivity]. }
  split; [reflexivity|]. split; [reflexivity|]. split; [reflexivity|].
  split; [exact Hcmp|]. split; [exact Ht|reflexivity].
Qed.

Lemma expiredSessionOf_false uid at_ s :
  expiredSessionOf uid at_ s = false
  <-> ~ (Sessions.userId s = uid /\ Sessions.expiresAt s < at_).
Proof.
  unfold expiredSessionOf. split.
  - intros H [Hu Hlt]. rewrite Hu, String.eqb_refl in H. simpl in H.
    apply Z.ltb_ge in H. lia.
  - intros H. destruct (Sessions.userId s =? uid) eqn:Hu; [|reflexivity]. simpl.
    apply String.eqb_eq in Hu. apply Z.ltb_ge.
    destruct (Z.lt_ge_cases (Sessions.expiresAt s) at_); [|assumption].
    exfalso. apply H. auto.
Qed.

(** X15.  A sign-in that succeeds prunes on the way: of the sessions stored
    before, those of the signing-in user whose expiresAt lies strictly
    before the second clock reading are deleted, and all others -- the
    user's sessions still running or expiring exactly then, and every
    session of other users -- are kept; one session of that user is added. *)
Theorem signIn_prunes_expired_sessions
    (bcrypt_compare : string -> string -> bool)
    (req : SignInRequest) (c : Client) (env : Env) (db : Db) :
  status (response (signIn bcrypt_compare req c env db)) = 200 ->
  exists user new,
    In user (users db) /\ Users.email user = si_email req
    /\ Sessions.userId new = Users.id user
    /\ Sessions.token new = newSessionToken env
    /\ forall s,
         In s (sessions (store (signIn bcrypt_compare req c env db)))
         <-> (In s (sessions db)
              /\ ~ (Sessions.userId s = Users.id user
                    /\ Sessions.expiresAt s < now2 env))
             \/ s = new.
Proof.
  intros H. destruct (signIn_ok _ _ _ _ _ H) as [user (_ & _ & Hsel & _ & _ & ->)].
  exists user,
    (newSessionRow (Users.id user) c env
       (now env + (if si_rememberMe req then sevenDays else oneDay))).
  unfold select_first in Hsel. apply find_some in Hsel. destruct Hsel as [Hin He].
  apply String.eqb_eq in He.
  split; [exact Hin|]. split; [exact He|]. split; [reflexivity|].
  split; [reflexivity|].
  intros s. simpl. rewrite in_app_iff, delete_where_In, expiredSessionOf_false.
  simpl. intuition.
Qed.

Lemma signIn_prunes_expired_sessions_witness :
  map Sessions.id
      (sessions (store (signIn sample_compare (signIn_alice false) client0
                               (env_at 5000 "t1" draws_A) db_alice_sessions)))
  = ["s-live"; "s1"]
  /\ exists user new,
       In user (users db_alice_sessions) /\ Sessions.userId new = Users.id user.
Proof.
  split; [reflexivity|].
  destruct (signIn_prunes_expired_sessions sample_compare (signIn_alice false) client0
              (env_at 5000 "t1" draws_A) db_alice_sessions eq_refl)
    as [user [new (Hin & _ & Hu & _)]].
  exists user, new. split; [exact Hin|exact Hu].
Defined.

(** X16.  Signing in and then signing out with the cookie just received
    leaves the sessions exactly as the pruning left them: the session the
    sign-in created is gone and no other session is touched. *)
Theorem signIn_then_signOut
    (bcrypt_compare : string -> string -> bool)
    (req : SignInRequest) (c : Client) (env : Env) (db : Db) (ck : Cookie) :
  cookie (response (signIn bcrypt_compare req c env db)) = Some ck ->
  is_empty (cookieValue ck) = false ->
  exists user,
    In user (users db) /\ Users.email user = si_email req
    /\ sessions (so_store (signOut (Some (cookieValue ck))
                             (store (signIn bcrypt_compare req c env db))))
       = delete_where (expiredSessionOf (Users.id user) (now2 env)) (sessions db)
    /\ users (so_store (signOut (Some (cookieValue ck))
                          (store (signIn bcrypt_compare req c env db))))
       = users db.
Proof.
  intros Hck Hne.
  assert (H : status (response (signIn bcrypt_compare req c env db)) = 200).
  { revert Hck. unfold signIn.
    destruct (_ || _); [discriminate|].
    destruct (negb (textOk _)); [discriminate|].
    destruct (select_first _ _); [|discriminate].
    destruct (negb _); [discriminate|].
    destruct (insert_session _ _); [reflexivity|discriminate]. }
  destruct (signIn_ok _ _ _ _ _ H) as [user (_ & _ & Hsel & _ & Hfresh & Heq)].
  rewrite Heq in Hck. simpl in Hck. inversion Hck. subst ck. simpl in Hne.
  exists user.
  unfold select_first in Hsel. apply find_some in Hsel. destruct Hsel as [Hin He].
  apply String.eqb_eq in He.
  split; [exact Hin|]. split; [exact He|].
  rewrite Heq. unfold signOut. simpl. rewrite Hne.
  rewrite (generated_session_token_ok env). simpl.
  split; [|reflexivity].
  unfold delete_where at 1. rewrite filter_app. simpl.
  rewrite String.eqb_refl. simpl. rewrite app_nil_r.
  apply (delete_where_none (fun s => Sessions.token s =? newSessionToken env)).
  exact Hfresh.
Qed.

Lemma signIn_then_signOut_witness :
  sessions (so_store (signOut (Some "tok1")
                        (store (signIn sample_compare (signIn_alice false) client0
                                       (env_at 5000 "t1" draws_A) db_alice_sessions))))
  = [alice_live_session].
Proof.
  destruct (signIn_then_signOut sample_compare (signIn_alice false) client0
              (env_at 5000 "t1" draws_A) db_alice_sessions
              (sessionCookie "tok1" oneDay) eq_refl eq_refl)
    as [user (Hin & _ & Hs & _)].
  simpl in Hs. rewrite Hs.
  destruct Hin as [<-|[]]. reflexivity.
Defined.

(** X17.  The cookie of a successful sign-up or sign-in is named
    sessionToken, carries the token of a session now in the store that
    belongs to the user returned in the body, and has as maxAge exactly that
    session's remaining life at the clock reading (expiresAt - now). *)
Theorem session_cookie_matches_stored_session
    (bcrypt_hash : string -> Z -> string -> string)
    (bcrypt_compare : string -> string -> bool)
    (up : SignUpRequest) (inn : SignInRequest) (c : Client) (env : Env) (db : Db) :
  (status (response (signUp bcrypt_hash up c env db)) = 201 ->
   exists ck view s,
     cookie (response (signUp bcrypt_hash up c env db)) = Some ck
     /\ data (response (signUp bcrypt_hash up c env db)) = UserData view
     /\ In s (sessions (store (signUp bcrypt_hash up c env db)))
     /\ cookieName ck = "sessionToken"
     /\ Sessions.token s = cookieValue ck
     /\ Sessions.userId s = uv_id view
     /\ maxAge ck = Sessions.expiresAt s - now env)
  /\ (status (response (signIn bcrypt_compare inn c env db)) = 200 ->
      exists ck view s,
        cookie (response (signIn bcrypt_compare inn c env db)) = Some ck
        /\ data (response (signIn bcrypt_compare inn c env db)) = UserData view
        /\ In s (sessions (store (signIn bcrypt_compare inn c env db)))
        /\ cookieName ck = "sessionToken"
        /\ Sessions.token s = cookieValue ck
        /\ Sessions.userId s = uv_id view
        /\ maxAge ck = Sessions.expiresAt s - now env).
Proof.
  split; intros H.
  - destruct (signUp_created _ _ _ _ _ H) as (_ & _ & _ & ->). simpl.
    eexists _, _, _. split; [reflexivity|]. split; [reflexivity|].
    split; [apply in_or_app; right; left; reflexivity|]. simpl.
    repeat split. lia.
  - destruct (signIn_ok _ _ _ _ _ H) as [user (_ & _ & _ & _ & _ & ->)]. simpl.
    eexists _, _, _. split; [reflexivity|]. split; [reflexivity|].
    split; [apply in_or_app; right; left; reflexivity|]. simpl.
    repeat split. lia.
Qed.

Lemma session_cookie_matches_stored_session_witness :
  exists ck s,
    cookie (response (signIn sample_compare (signIn_alice true) client0
                             (env_at 5000 "t1" draws_A) db_alice)) = Some ck
    /\ In s (sessions (store (signIn sample_compare (signIn_alice true) client0
                                     (env_at 5000 "t1" draws_A) db_alice)))
    /\ Sessions.token s = cookieValue ck
    /\ maxAge ck = Sessions.expiresAt s - 5000.
Proof.
  destruct (proj2 (session_cookie_matches_stored_session sample_hash sample_compare
                     (signUp_carol "+1777") (signIn_alice true) client0
                     (env_at 5000 "t1" draws_A) db_alice) eq_refl)
    as [ck [view [s (Hc & _ & Hin & _ & Ht & _ & Hm)]]].
  exists ck, s. split; [exact Hc|]. split; [exact Hin|]. split; [exact Ht|exact Hm].
Defined.

(** ** Sign-up: partial failure, and signing in afterwards *)

Lemma signUpShapeOk_true req :
  signUpShapeOk req = true ->
  is_empty (su_firstName req) || is_empty (su_lastName req)
  || is_empty (su_email req) || is_empty (su_phone req)
  || is_empty (su_password req) = false
  /\ emailRegex_test (su_email req) = true
  /\ (String.length (su_password req) <? 6)%nat = false.
Proof.
  unfold signUpShapeOk. intros H.
  apply andb_prop in H. destruct H as [H H3].
  apply andb_prop in H. destruct H as [H1 H2].
  apply negb_true_iff in H1. apply negb_true_iff in H3. auto.
Qed.





(** X19.  A user who has just signed up can sign in.  If [bcrypt.compare]
    accepts a password against the hash [bcrypt.hash] made of it, then after
    a 201 from [signUp] a [signIn] with the same email and password, whose
    session id and token are not taken, is answered 200 and returns the same
    user as the sign-up did. *)
Theorem signUp_then_signIn
    (bcrypt_hash : string -> Z -> string -> string)
    (bcrypt_compare : string -> string -> bool)
    (req : SignUpRequest) (c c2 : Client) (env env2 : Env) (db : Db)
    (remember : bool) :
  bcrypt_compare (su_password req) (bcrypt_hash (su_password req) 12 (salt env)) = true ->
  status (response (signUp bcrypt_hash req c env db)) = 201 ->
  existsb (fun r => Sessions.id r =? newSessionId env2)
          (sessions (store (signUp bcrypt_hash req c env db))) = false ->
  existsb (fun r => Sessions.token r =? newSessionToken env2)
          (sessions (store (signUp bcrypt_hash req c env db))) = false ->
  status (response (signIn bcrypt_compare
                      {| si_email := su_email req; si_password := su_password req;
                         si_rememberMe := remember |}
                      c2 env2 (store (signUp bcrypt_hash req c env db)))) = 200
  /\ data (response (signIn bcrypt_compare
                       {| si_email := su_email req; si_password := su_password req;
                          si_rememberMe := remember |}
                       c2 env2 (store (signUp bcrypt_hash req c env db))))
     = data (response (signUp bcrypt_hash req c env db)).
Proof.
  intros Hcmp H201. pose proof (signUp_created_text _ _ _ _ _ H201) as Hte.
  destruct (signUp_created _ _ _ _ _ H201) as (Hshape & Hnone & _ & ->).
  cbn [store response data sessions]. intros Hsid Hstok.
  destruct (signUpShapeOk_true req Hshape) as (Hf & _ & _).
  apply orb_false_elim in Hf. destruct Hf as [Hf Hpw].
  apply orb_false_elim in Hf. destruct Hf as [Hf _].
  apply orb_false_elim in Hf. destruct Hf as [_ Hem].
  unfold signIn. cbn [si_email si_password si_rememberMe users sessions].
  rewrite Hem, Hpw, Hte. simpl orb. cbn [negb]. cbv iota.
  rewrite select_first_app_none.
  2:{ intros x Hx. unfold select_first in Hnone. exact (find_none _ _ Hnone x Hx). }
  unfold select_first. simpl find. rewrite String.eqb_refl.
  cbn [Users.password newUserRow]. rewrite Hcmp. simpl negb. cbv iota.
  unfold insert_session.
  cbn [Sessions.id Sessions.token Sessions.userId with_sessions sessions users
       Users.id newUserRow].
  rewrite (existsb_delete_where _ _ _ Hsid), (existsb_delete_where _ _ _ Hstok).
  rewrite existsb_app. simpl existsb. rewrite String.eqb_refl.
  rewrite orb_true_r. simpl. split; reflexivity.
Qed.

Lemma signUp_then_signIn_witness :
  status (response (signIn sample_compare
                      {| si_email := "c@x.com"; si_password := "secret2";
                         si_rememberMe := false |}
                      client0 (env_at 6000 "t2" draws_B)
                      (store (signUp (fun p _ _ => "$2b$12$hash-of-" ++ p)
                                     (signUp_carol "+1777") client0
                                     {| now := 5000; now2 := 5000; dbNow := 5000;
                                        newUserId := "u2"; newSessionId := "s0";
                                        newSessionToken := "tok0"; newTokenId := "t1";
                                        codeDraws := draws_A; salt := "salt";
                                        sendError := false; generated_ok := eq_refl |} db_alice)))) = 200.
Proof.
  apply (proj1 (signUp_then_signIn (fun p _ _ => "$2b$12$hash-of-" ++ p) sample_compare
                  (signUp_carol "+1777") client0 client0
                  {| now := 5000; now2 := 5000; dbNow := 5000;
                     newUserId := "u2"; newSessionId := "s0";
                     newSessionToken := "tok0"; newTokenId := "t1";
                     codeDraws := draws_A; salt := "salt"; sendError := false;
                     generated_ok := eq_refl |}
                  (env_at 6000 "t2" draws_B) db_alice false
                  eq_refl eq_refl eq_refl eq_refl)).
Defined.

(** ** Concurrent issuance for different users *)

Lemma active_none_after_expire p uid ty at_ ts :
  filter (activeFor uid ty at_) ts = [] ->
  filter (activeFor uid ty at_) (update_where p (Tokens.set_status EXPIRED) ts) = [].
Proof.
  intros H. pose proof (active_count_expire_le p uid ty at_ ts) as Hle.
  rewrite H in Hle. simpl in Hle.
  destruct (filter _ (update_where _ _ _)); [reflexivity|simpl in Hle; lia].
Qed.

Lemma pcConsistent_other at_ q pc ts ts' :
  pcConsistent at_ q pc ts ->
  (forall uid, r_user q = Some uid ->
     filter (activeFor uid EMAIL at_) ts = [] ->
     filter (activeFor uid EMAIL at_) ts' = []) ->
  pcConsistent at_ q pc ts'.
Proof.
  destruct pc; simpl; auto.
  intros [Hu Hn] H. split; [exact Hu|]. apply H; assumption.
Qed.

Lemma insert_keeps_atMostOneActive at_ ts newToken :
  Tokens.type newToken = EMAIL ->
  filter (activeFor (Tokens.userId newToken) EMAIL at_) ts = [] ->
  atMostOneActive at_ ts -> atMostOneActive at_ (ts ++ [newToken]).
Proof.
  intros Hty Hnone H uid ty. rewrite filter_app, length_app. simpl.
  destruct (activeFor uid ty at_ newToken) eqn:Hact.
  - unfold activeFor in Hact. rewrite Hty in Hact.
    apply andb_prop in Hact. destruct Hact as [Hact _].
    apply andb_prop in Hact. destruct Hact as [Hact _].
    apply andb_prop in Hact. destruct Hact as [Huid Hty'].
    apply String.eqb_eq in Huid. subst uid.
    destruct ty; [|discriminate]. rewrite Hnone. simpl. lia.
  - specialize (H uid ty). simpl. lia.
Qed.

Lemma issuance_step_keeps at_ (a b : Request) pa pb w :
  r_user a <> r_user b ->
  atMostOneActive at_ (tokens (w_db w)) ->
  pcConsistent at_ a pa (tokens (w_db w)) ->
  pcConsistent at_ b pb (tokens (w_db w)) ->
  atMostOneActive at_ (tokens (w_db (snd (issuance_step a pa w))))
  /\ pcConsistent at_ a (fst (issuance_step a pa w))
                  (tokens (w_db (snd (issuance_step a pa w))))
  /\ pcConsistent at_ b pb (tokens (w_db (snd (issuance_step a pa w)))).
Proof.
  intros Hne Hinv Ha Hb. destruct pa as [|u|u|u|u tok|r]; simpl.
  - destruct (r_user a) as [uid|] eqn:Hua; simpl; [|auto].
    destruct (select_first _ (users (w_db w))) as [u|] eqn:Hu; simpl; [|auto].
    apply select_user_by_id in Hu. destruct Hu as [_ Hid].
    destruct (r_kind a); simpl; rewrite Hid; auto.
  - destruct (select_first _ (tokens (w_db w))); simpl; auto.
  - simpl in Ha. split; [apply expire_keeps_atMostOneActive; exact Hinv|].
    split; [split; [exact Ha|apply no_active_after_expire]|].
    apply (pcConsistent_other at_ b pb (tokens (w_db w))); [exact Hb|].
    intros uid _. apply active_none_after_expire.
  - simpl in Ha. destruct Ha as [Hua Hnone].
    destruct (insert_token _ (w_db w)) as [db2|] eqn:Hi; simpl; [|auto].
    apply insert_token_some in Hi. destruct Hi as (-> & _). simpl.
    split; [apply insert_keeps_atMostOneActive; auto|]. split; [exact I|].
    apply (pcConsistent_other at_ b pb (tokens (w_db w))); [exact Hb|].
    intros uid Hub Hn. rewrite filter_app, Hn. simpl.
    replace (activeFor uid EMAIL at_
               (newEmailToken (Users.id u) (r_env a) (issueClock (r_kind a) (r_env a))))
      with false; [reflexivity|].
    unfold activeFor. simpl.
    destruct (Users.id u =? uid) eqn:He; [|reflexivity].
    apply String.eqb_eq in He. exfalso. apply Hne. congruence.
  - auto.
  - auto.
Qed.

Lemma interleave_keeps at_ (a b : Request) :
  r_user a <> r_user b ->
  forall sched pa pb w,
    atMostOneActive at_ (tokens (w_db w)) ->
    pcConsistent at_ a pa (tokens (w_db w)) ->
    pcConsistent at_ b pb (tokens (w_db w)) ->
    atMostOneActive at_ (tokens (w_db (snd (interleave sched a b pa pb w)))).
Proof.
  intros Hne. induction sched as [|turn sched IH]; intros pa pb w Hinv Ha Hb; simpl.
  - exact Hinv.
  - destruct turn.
    + destruct (issuance_step_keeps at_ a b pa pb w Hne Hinv Ha Hb) as (H1 & H2 & H3).
      destruct (issuance_step a pa w) as [pa' w']. apply IH; assumption.
    + destruct (issuance_step_keeps at_ b a pb pa w (not_eq_sym Hne) Hinv Hb Ha)
        as (H1 & H2 & H3).
      destruct (issuance_step b pb w) as [pb' w']. apply IH; assumption.
Qed.

(** X20.  Issuances for different users do not disturb each other: however
    the statements of two send or resend requests of two different users are
    interleaved, and wherever the schedule stops, a store that had at most
    one active token per (user, purpose) pair still has. *)
Theorem issuances_of_different_users_keep_atMostOneActive
    (sched : list Turn) (a b : Request) (w : World) (at_ : Z) :
  r_user a <> r_user b ->
  atMostOneActive at_ (tokens (w_db w)) ->
  atMostOneActive at_
    (tokens (w_db (snd (interleave sched a b PcSelectUser PcSelectUser w)))).
Proof.
  intros Hne Hinv. apply interleave_keeps; simpl; auto.
Qed.

Lemma issuances_of_different_users_keep_atMostOneActive_witness :
  atMostOneActive 3001 (tokens db_alice_bob)
  /\ atMostOneActive 3001
       (tokens (w_db (snd (interleave alternate8 resend_A resend_bob
                             PcSelectUser PcSelectUser
                             {| w_db := db_alice_bob; w_outbox := [] |}))))
  /\ map Tokens.userId
         (tokens (w_db (snd (interleave alternate8 resend_A resend_bob
                               PcSelectUser PcSelectUser
                               {| w_db := db_alice_bob; w_outbox := [] |}))))
     = ["u1"; "u7"].
Proof.
  assert (H : atMostOneActive 3001 (tokens db_alice_bob)).
  { intros u ty. simpl. lia. }
  split; [exact H|]. split; [|reflexivity].
  apply (issuances_of_different_users_keep_atMostOneActive alternate8 resend_A resend_bob
           {| w_db := db_alice_bob; w_outbox := [] |} 3001); [|exact H].
  simpl. discriminate.
Defined.

(** ** The handlers keep the constraints of the schema *)

Lemma map_update_where {A B} (key : A -> B) (p : A -> bool) (f : A -> A) l :
  (forall x, key (f x) = key x) -> map key (update_where p f l) = map key l.
Proof.
  intros H. unfold update_where. rewrite map_map. apply map_ext.
  intros x. destruct (p x); [apply H|reflexivity].
Qed.

Lemma NoDup_map_delete_where {A B} (key : A -> B) (p : A -> bool) l :
  NoDup (map key l) -> NoDup (map key (delete_where p l)).
Proof.
  unfold delete_where. induction l as [|a l IH]; simpl; intros H; [constructor|].
  inversion H as [|? ? Hn Hl]; subst.
  destruct (p a); simpl; [apply IH; exact Hl|].
  constructor; [|apply IH; exact Hl].
  intros Hin. apply Hn. apply in_map_iff in Hin. destruct Hin as [x [Hx Hf]].
  apply filter_In in Hf. rewrite <- Hx. apply in_map. tauto.
Qed.

Lemma incl_map_delete_where {A B} (key : A -> B) (p : A -> bool) l ks :
  incl (map key l) ks -> incl (map key (delete_where p l)) ks.
Proof.
  intros H k Hk. apply H. apply in_map_iff in Hk. destruct Hk as [x [Hx Hf]].
  unfold delete_where in Hf. apply filter_In in Hf. rewrite <- Hx. apply in_map. tauto.
Qed.

Lemma stored_in {A} (key : A -> string) (k : string) l :
  existsb (fun r => key r =? k) l = true -> In k (map key l).
Proof.
  intros H. apply existsb_exists in H. destruct H as [x [Hx He]].
  apply String.eqb_eq in He. rewrite <- He. apply in_map. exact Hx.
Qed.

Lemma wf_update_tokens p s db :
  wellFormed db ->
  wellFormed (with_tokens (update_where p (Tokens.set_status s) (tokens db)) db).
Proof.
  intros [H1 H2 H3 H4 H5 H6 H7 H8 H9]. constructor; simpl; try assumption.
  - rewrite (map_update_where Tokens.id); [exact H6|reflexivity].
  - rewrite (map_update_where Tokens.code); [exact H7|reflexivity].
  - rewrite (map_update_where Tokens.userId); [exact H9|reflexivity].
Qed.

Lemma wf_update_users p b db :
  wellFormed db ->
  wellFormed (with_users (update_where p (Users.set_emailVerified b) (users db)) db).
Proof.
  intros [H1 H2 H3 H4 H5 H6 H7 H8 H9]. constructor; simpl; try assumption.
  - rewrite (map_update_where Users.id); [exact H1|reflexivity].
  - rewrite (map_update_where Users.email); [exact H2|reflexivity].
  - rewrite (map_update_where Users.phone); [exact H3|reflexivity].
  - rewrite (map_update_where Users.id); [exact H8|reflexivity].
  - rewrite (map_update_where Users.id); [exact H9|reflexivity].
Qed.

Lemma wf_delete_sessions p db :
  wellFormed db -> wellFormed (with_sessions (delete_where p (sessions db)) db).
Proof.
  intros [H1 H2 H3 H4 H5 H6 H7 H8 H9]. constructor; simpl; try assumption.
  - apply NoDup_map_delete_where. exact H4.
  - apply NoDup_map_delete_where. exact H5.
  - apply incl_map_delete_where. exact H8.
Qed.

Lemma wf_insert_user u db db' :
  wellFormed db -> insert_user u db = Some db' -> wellFormed db'.
Proof.
  intros [H1 H2 H3 H4 H5 H6 H7 H8 H9]. unfold insert_user.
  destruct (negb _); [discriminate|].
  destruct (existsb (fun r => Users.id r =? Users.id u) (users db)) eqn:Ei;
    [discriminate|].
  destruct (existsb (fun r => Users.email r =? Users.email u) (users db)) eqn:Ee;
    [discriminate|].
  destruct (existsb (fun r => Users.phone r =? Users.phone u) (users db)) eqn:Ep;
    [discriminate|].
  simpl. intros H. inversion H. subst db'.
  constructor; simpl; try assumption; rewrite ?map_app; simpl.
  - apply NoDup_snoc; [exact H1|apply not_stored_notin; exact Ei].
  - apply NoDup_snoc; [exact H2|apply not_stored_notin; exact Ee].
  - apply NoDup_snoc; [exact H3|apply not_stored_notin; exact Ep].
  - apply incl_appl. exact H8.
  - apply incl_appl. exact H9.
Qed.

Lemma wf_insert_session s db db' :
  wellFormed db -> insert_session s db = Some db' -> wellFormed db'.
Proof.
  intros [H1 H2 H3 H4 H5 H6 H7 H8 H9]. unfold insert_session.
  destruct (existsb (fun r => Sessions.id r =? Sessions.id s) (sessions db)) eqn:Ei;
    [discriminate|].
  destruct (existsb (fun r => Sessions.token r =? Sessions.token s) (sessions db)) eqn:Et;
    [discriminate|].
  destruct (existsb (fun u => Users.id u =? Sessions.userId s) (users db)) eqn:Eu;
    [|discriminate].
  simpl. intros H. inversion H. subst db'.
  constructor; simpl; try assumption; rewrite ?map_app; simpl.
  - apply NoDup_snoc; [exact H4|apply not_stored_notin; exact Ei].
  - apply NoDup_snoc; [exact H5|apply not_stored_notin; exact Et].
  - apply incl_app; [exact H8|]. intros k [<-|[]]. apply stored_in. exact Eu.
Qed.

Lemma wf_insert_token t db db' :
  wellFormed db -> insert_token t db = Some db' -> wellFormed db'.
Proof.
  intros [H1 H2 H3 H4 H5 H6 H7 H8 H9]. unfold insert_token.
  destruct (existsb (fun r => Tokens.id r =? Tokens.id t) (tokens db)) eqn:Ei;
    [discriminate|].
  destruct (existsb (fun r => Tokens.code r =? Tokens.code t) (tokens db)) eqn:Ec;
    [discriminate|].
  destruct (existsb (fun u => Users.id u =? Tokens.userId t) (users db)) eqn:Eu;
    [|discriminate].
  simpl. intros H. inversion H. subst db'.
  constructor; simpl; try assumption; rewrite ?map_app; simpl.
  - apply NoDup_snoc; [exact H6|apply not_stored_notin; exact Ei].
  - apply NoDup_snoc; [exact H7|apply not_stored_notin; exact Ec].
  - apply incl_app; [exact H9|]. intros k [<-|[]]. apply stored_in. exact Eu.
Qed.

(** X21.  Every handler leaves the store within the constraints of the
    schema: if ids, emails, phones, session tokens and token codes are unique
    and every session and token belongs to a stored user before a handler
    runs, the same holds after it, whatever the request and whatever the
    answer -- also when the handler stops half-way with a 500. *)
Theorem handlers_keep_wellFormed
    (bcrypt_hash : string -> Z -> string -> string)
    (bcrypt_compare : string -> string -> bool)
    (up : SignUpRequest) (inn : SignInRequest) (c : Client)
    (reqUser cookieToken : option string) (code : string) (env : Env) (db : Db) :
  wellFormed db ->
  wellFormed (store (signUp bcrypt_hash up c env db))
  /\ wellFormed (store (signIn bcrypt_compare inn c env db))
  /\ wellFormed (so_store (signOut cookieToken db))
  /\ wellFormed (store (getCurrentUser reqUser db))
  /\ wellFormed (store (sendEmailVerificationCode reqUser env db))
  /\ wellFormed (store (resendEmailVerificationCode reqUser env db))
  /\ wellFormed (store (verifyEmailVerificationCode code reqUser env db)).
Proof.
  intros Hwf. split; [|split; [|split; [|split; [|split; [|split]]]]].
  - unfold signUp.
    destruct (_ || _ || _ || _ || _); [exact Hwf|].
    destruct (negb _); [exact Hwf|].
    destruct (_ <? _)%nat; [exact Hwf|].
    destruct (negb (textOk _)); [exact Hwf|].
    destruct (select_first _ _); [exact Hwf|].
    destruct (insert_user _ db) as [db1|] eqn:Hi; [|exact Hwf].
    pose proof (wf_insert_user _ _ _ Hwf Hi) as Hwf1.
    destruct (insert_session _ db1) as [db2|] eqn:Hs; [|exact Hwf1].
    exact (wf_insert_session _ _ _ Hwf1 Hs).
  - unfold signIn.
    destruct (_ || _); [exact Hwf|].
    destruct (negb (textOk _)); [exact Hwf|].
    destruct (select_first _ _) as [user|]; [|exact Hwf].
    destruct (negb _); [exact Hwf|].
    match goal with
    | |- context [insert_session ?s ?d] =>
      assert (Hwf1 : wellFormed d) by (apply wf_delete_sessions; exact Hwf);
      destruct (insert_session s d) as [db2|] eqn:Hs
    end.
    + exact (wf_insert_session _ _ _ Hwf1 Hs).
    + exact Hwf1.
  - unfold signOut. destruct cookieToken as [tok|]; [|exact Hwf].
    destruct (is_empty tok); [exact Hwf|].
    destruct (negb (textOk tok)); [exact Hwf|].
    apply wf_delete_sessions. exact Hwf.
  - unfold getCurrentUser. destruct reqUser; [|exact Hwf].
    destruct (select_first _ _); exact Hwf.
  - unfold sendEmailVerificationCode. destruct reqUser as [uid|]; [|exact Hwf].
    destruct (select_first _ (users db)) as [u|]; [|exact Hwf].
    destruct (select_first _ (tokens db)); [exact Hwf|].
    assert (Hwf1 : wellFormed (expireEmailTokens (Users.id u) db))
      by (apply wf_update_tokens; exact Hwf).
    destruct (insert_token _ _) as [db2|] eqn:Hi; [|exact Hwf1].
    exact (wf_insert_token _ _ _ Hwf1 Hi).
  - unfold resendEmailVerificationCode. destruct reqUser as [uid|]; [|exact Hwf].
    destruct (select_first _ (users db)) as [u|]; [|exact Hwf].
    assert (Hwf1 : wellFormed (expireEmailTokens (Users.id u) db))
      by (apply wf_update_tokens; exact Hwf).
    destruct (insert_token _ _) as [db2|] eqn:Hi; [|exact Hwf1].
    exact (wf_insert_token _ _ _ Hwf1 Hi).
  - unfold verifyEmailVerificationCode.
    destruct (is_empty code); [exact Hwf|].
    destruct (_ || _); [exact Hwf|].
    destruct reqUser as [uid|]; [|exact Hwf].
    destruct (select_first _ (users db)) as [u|]; [|exact Hwf].
    destruct (select_first _ (tokens db)) as [vt|]; [|exact Hwf].
    unfold reply. cbn [store].
    apply wf_update_tokens. apply wf_update_users. apply wf_update_tokens.
    exact Hwf.
Qed.

Lemma handlers_keep_wellFormed_witness :
  wellFormed db_alice_token
  /\ wellFormed (store (resendEmailVerificationCode (Some "u1")
                          (env_at 3000 "t1" draws_A) db_alice_token)).
Proof.
  assert (H : wellFormed db_alice_token).
  { constructor; simpl.
    1-7: repeat constructor; simpl; tauto.
    all: intros k Hk; simpl in *; tauto. }
  split; [exact H|].
  exact (proj1 (proj2 (proj2 (proj2 (proj2 (proj2
           (handlers_keep_wellFormed sample_hash sample_compare (signUp_carol "+1777")
              (signIn_alice false) client0 (Some "u1") None "abc123"
              (env_at 3000 "t1" draws_A) db_alice_token H))))))).
Defined.

(** ** Sign-up: what is refused as malformed *)

(** X22.  [signUp] answers 400 "Bad Request" exactly when a field is empty,
    or the email is not of the form local@head.tail without white space or
    a second [@], or the password has fewer than six characters; it then
    leaves the store as it was. *)
Theorem signUp_bad_request_iff
    (bcrypt_hash : string -> Z -> string -> string)
    (req : SignUpRequest) (c : Client) (env : Env) (db : Db) :
  (status (response (signUp bcrypt_hash req c env db)) = 400
   <-> (su_firstName req = EmptyString \/ su_lastName req = EmptyString
        \/ su_email req = EmptyString \/ su_phone req = EmptyString
        \/ su_password req = EmptyString)
       \/ ~ emailShape (su_email req)
       \/ (String.length (su_password req) < 6)%nat)
  /\ (status (response (signUp bcrypt_hash req c env db)) = 400 ->
      signUp bcrypt_hash req c env db
      = {| response := badRequest; store := db; outbox := [] |}).
Proof.
  assert (Hemp : forall s, is_empty s = true <-> s = EmptyString).
  { intros s. unfold is_empty. apply String.eqb_eq. }
  unfold signUp.
  destruct (is_empty (su_firstName req)) eqn:E1;
    [split; [split; [intros _; left; left; apply Hemp; exact E1|reflexivity]
            |reflexivity]|].
  destruct (is_empty (su_lastName req)) eqn:E2;
    [split; [split; [intros _; left; right; left; apply Hemp; exact E2|reflexivity]
            |reflexivity]|].
  destruct (is_empty (su_email req)) eqn:E3;
    [split; [split; [intros _; left; right; right; left; apply Hemp; exact E3
                    |reflexivity]
            |reflexivity]|].
  destruct (is_empty (su_phone req)) eqn:E4;
    [split; [split; [intros _; left; right; right; right; left; apply Hemp; exact E4
                    |reflexivity]
            |reflexivity]|].
  destruct (is_empty (su_password req)) eqn:E5;
    [split; [split; [intros _; left; right; right; right; right; apply Hemp; exact E5
                    |reflexivity]
            |reflexivity]|].
  simpl orb. cbv iota.
  assert (Hnon : ~ (su_firstName req = EmptyString \/ su_lastName req = EmptyString
                    \/ su_email req = EmptyString \/ su_phone req = EmptyString
                    \/ su_password req = EmptyString)).
  { intros [H|[H|[H|[H|H]]]]; apply Hemp in H; congruence. }
  destruct (emailRegex_test (su_email req)) eqn:Er; simpl negb; cbv iota.
  2:{ split; [split; [intros _; right; left; intros Hs;
                      apply emailRegex_test_complete in Hs; congruence|reflexivity]
             |reflexivity]. }
  assert (Hshape : emailShape (su_email req))
    by (apply emailRegex_test_sound; exact Er).
  destruct (Nat.ltb_spec (String.length (su_password req)) 6) as [Hlt|Hge].
  { split; [split; [intros _; right; right; exact Hlt|reflexivity]|reflexivity]. }
  assert (Hno : ~ ((su_firstName req = EmptyString \/ su_lastName req = EmptyString
                    \/ su_email req = EmptyString \/ su_phone req = EmptyString
                    \/ su_password req = EmptyString)
                   \/ ~ emailShape (su_email req)
                   \/ (String.length (su_password req) < 6)%nat)).
  { intros [H|[H|H]]; [exact (Hnon H)|exact (H Hshape)|lia]. }
  destruct (negb (textOk _)).
  { simpl. split; [split; [discriminate|intros H; destruct (Hno H)]|discriminate]. }
  destruct (select_first _ _).
  { simpl. split; [split; [discriminate|intros H; destruct (Hno H)]|discriminate]. }
  destruct (insert_user _ db) as [db1|].
  2:{ simpl. split; [split; [discriminate|intros H; destruct (Hno H)]|discriminate]. }
  destruct (insert_session _ db1);
    simpl; (split; [split; [discriminate|intros H; destruct (Hno H)]|discriminate]).
Qed.

Lemma signUp_bad_request_iff_witness :
  status (response (signUp sample_hash
                      {| su_firstName := "C"; su_lastName := "D";
                         su_email := "c@x.com"; su_phone := "+1777";
                         su_password := "12345" |}
                      client0 (env_at 5000 "t1" draws_A) db_alice)) = 400
  /\ status (response (signUp sample_hash (signUp_carol "+1777") client0
                              (env_at 5000 "t1" draws_A) db_alice)) <> 400.
Proof.
  split.
  - apply (proj2 (proj1 (signUp_bad_request_iff sample_hash
                           {| su_firstName := "C"; su_lastName := "D";
                              su_email := "c@x.com"; su_phone := "+1777";
                              su_password := "12345" |}
                           client0 (env_at 5000 "t1" draws_A) db_alice))).
    right. right. simpl. lia.
  - intros H.
    apply (proj1 (proj1 (signUp_bad_request_iff sample_hash (signUp_carol "+1777")
                           client0 (env_at 5000 "t1" draws_A) db_alice))) in H.
    destruct H as [[H|[H|[H|[H|H]]]]|[H|H]]; try discriminate.
    + apply H. apply emailRegex_test_sound. reflexivity.
    + simpl in H. lia.
Defined.

(** ** Send and resend share the issuing steps *)

(** X23.  When the user has no valid token, [sendEmailVerificationCode] does
    what [resendEmailVerificationCode] does: run with the same generated id
    and code, database time and mail verdict, and with the clock reading
    that dates the token, both leave the same store, answer with the same
    status and token, and mail the same code to the same recipient. *)
Theorem send_without_valid_token_is_resend
    (uid : string) (env env' : Env) (db : Db) (u : Users.row) :
  In u (users db) -> Users.id u = uid ->
  (forall x, In x (tokens db) -> validEmailTokenOf uid (now env) x = false) ->
  now env' = now2 env -> newTokenId env' = newTokenId env ->
  codeDraws env' = codeDraws env -> dbNow env' = dbNow env ->
  sendError env' = sendError env ->
  store (sendEmailVerificationCode (Some uid) env db)
  = store (resendEmailVerificationCode (Some uid) env' db)
  /\ status (response (sendEmailVerificationCode (Some uid) env db))
     = status (response (resendEmailVerificationCode (Some uid) env' db))
  /\ data (response (sendEmailVerificationCode (Some uid) env db))
     = data (response (resendEmailVerificationCode (Some uid) env' db))
  /\ map (fun m => (to m, greetedName m, shownCode m))
         (outbox (sendEmailVerificationCode (Some uid) env db))
     = map (fun m => (to m, greetedName m, shownCode m))
           (outbox (resendEmailVerificationCode (Some uid) env' db)).
Proof.
  intros Hin Hid Hnone Hnow Htid Hdraws Hdb Hse.
  destruct (select_user_present uid (users db) u Hin Hid) as [u' [Hu Hid']].
  unfold sendEmailVerificationCode, resendEmailVerificationCode.
  rewrite Hu, Hid', (select_first_none _ _ Hnone).
  assert (Htok : newEmailToken uid env' (now env') = newEmailToken uid env (now2 env)).
  { unfold newEmailToken. rewrite Hnow, Htid, Hdraws, Hdb. reflexivity. }
  rewrite Htok, Hse, Hdraws.
  destruct (insert_token _ _); simpl; [|auto].
  destruct (sendError env); simpl; auto.
Qed.

Lemma send_without_valid_token_is_resend_witness :
  store (sendEmailVerificationCode (Some "u1") (env_at 3000 "t1" draws_A) db_alice)
  = store (resendEmailVerificationCode (Some "u1") (env_at 3000 "t1" draws_A) db_alice).
Proof.
  apply (proj1 (send_without_valid_token_is_resend "u1" (env_at 3000 "t1" draws_A)
                  (env_at 3000 "t1" draws_A) db_alice alice
                  (or_introl eq_refl) eq_refl (fun x (H : In x []) => match H with end)
                  eq_refl eq_refl eq_refl eq_refl eq_refl)).
Defined.
